(** * sofi2dpy.model_utils: grid preparation for SOFI2D

    A shallow embedding of [src/sofi2dpy/model_utils.py]: the resampler
    [resample_model], the two definitions of [pad_model_to_multiple] and the
    process-grid search [suggest_domain_decomposition_sofi], together with the
    parts of Python, NumPy and SciPy they call.

    Conventions.
    - Python [int] is [Z]; [//] and [%] are [Z.div] and [Z.modulo] (both floor
      towards minus infinity, the remainder taking the divisor's sign) and
      raise [ZeroDivisionError] on a zero divisor.
    - Python [float] / NumPy [float64] is Rocq's primitive binary64 [float];
      [==] is IEEE equality ([PrimFloat.eqb], false on NaN).
    - A function that can raise returns [result]; [let*] sequences calls and
      propagates the first exception.
    - A [for] loop over a [range] is a monadic left fold over the list of the
      range's values. *)

From Stdlib Require Import ZArith List Lia Bool Floats Uint63.
From Stdlib Require Ascii String DecimalString DecimalZ DecimalPos.
Import String.StringSyntax.
Delimit Scope string_scope with string.
Import ListNotations.
Open Scope Z_scope.

(* ================================================================== *)
(** ** Python *)
(* ================================================================== *)

Module Py.

(** The exceptions the modelled code can raise. *)
Inductive exn : Type :=
| TypeError
| ValueError
| ZeroDivisionError
| IndexError
| OverflowError
| AttributeError.

Inductive result (A : Type) : Type :=
| Ok (a : A)
| Raise (e : exn).

Arguments Ok {A} a.
Arguments Raise {A} e.

Definition bind {A B : Type} (r : result A) (k : A -> result B) : result B :=
  match r with
  | Ok a => k a
  | Raise e => Raise e
  end.

(** [a % b] *)
Definition mod_ (a b : Z) : result Z :=
  if b =? 0 then Raise ZeroDivisionError else Ok (a mod b).

(** [a // b] *)
Definition floordiv (a b : Z) : result Z :=
  if b =? 0 then Raise ZeroDivisionError else Ok (a / b).

(** [range(lo, hi)] as the list of its values. *)
Definition range (lo hi : Z) : list Z :=
  map (fun k => lo + Z.of_nat k) (seq 0 (Z.to_nat (hi - lo))).

(** [for x in xs: s = body(s, x)], stopping at the first exception. *)
Fixpoint for_each {S A : Type} (xs : list A) (body : S -> A -> result S)
    (s : S) : result S :=
  match xs with
  | [] => Ok s
  | x :: xs' => bind (body s x) (for_each xs' body)
  end.

End Py.

Import Py.

Notation "'let*' x ':=' e 'in' k" := (Py.bind e (fun x => k))
  (at level 10, x pattern, e at level 100, k at level 200).

(* ================================================================== *)
(** ** Domain decomposition (model_utils.py, lines 165-216) *)
(* ================================================================== *)

Module Decomp.

(** The loop's two variables, [best] and [best_procs]. *)
Record search : Type := mkSearch {
  best : Z * Z;
  best_procs : Z
}.

(** Before the loops: [best = (1, 1)], [best_procs = 1]. *)
Definition search0 : search := mkSearch (1, 1) 1.

(** The body of the inner loop, for one [fx]; each [continue] leaves the
    state as it is.  [nx % fx != 0 or nz % fy != 0] evaluates its right
    operand only when the left one is false. *)
Definition try_factor (nx nz min_block nproc : Z) (st : search) (fx : Z)
    : result search :=
  let* r := Py.mod_ nproc fx in
  if negb (r =? 0) then Ok st else
  let* fy := Py.floordiv nproc fx in
  let* rx := Py.mod_ nx fx in
  let* uneven :=
    (if negb (rx =? 0) then Ok true
     else let* rz := Py.mod_ nz fy in Ok (negb (rz =? 0))) in
  if (uneven : bool) then Ok st else
  let* local_nx := Py.floordiv nx fx in
  let* local_nz := Py.floordiv nz fy in
  if (local_nx <? min_block) || (local_nz <? min_block) then Ok st else
  if fx * fy >? best_procs st then Ok (mkSearch (fx, fy) (fx * fy))
  else Ok st.

(** The body of the outer loop, for one [nproc]. *)
Definition try_nproc (nx nz min_block : Z) (st : search) (nproc : Z)
    : result search :=
  Py.for_each (Py.range 1 (nproc + 1)) (try_factor nx nz min_block nproc) st.

(** [suggest_domain_decomposition_sofi(nx, nz, max_cores, fw, fdorder)],
    returning [(NPROCX, NPROCY, threads_per_proc, total_procs)]. *)
Definition suggest_domain_decomposition_sofi (nx nz max_cores fw fdorder : Z)
    : result (Z * Z * Z * Z) :=
  let min_block := 2 * fw + 2 * fdorder in
  let* st := Py.for_each (Py.range 1 (max_cores + 1))
               (try_nproc nx nz min_block) search0 in
  let* q := Py.floordiv max_cores (best_procs st) in
  let threads_per_proc := Z.max 1 q in
  Ok (fst (best st), snd (best st), threads_per_proc, best_procs st).

(** A candidate the search accepts: both factors divide evenly and both
    local sizes reach [min_block]. *)
Definition feasible (nx nz min_block fx fy : Z) : Prop :=
  nx mod fx = 0 /\ nz mod fy = 0 /\
  min_block <= nx / fx /\ min_block <= nz / fy.

(** The inner body without the exception plumbing, for a non-zero [fx]
    that leaves a non-zero [fy]. *)
Definition step (nx nz min_block nproc : Z) (st : search) (fx : Z) : search :=
  if negb (nproc mod fx =? 0) then st else
  let fy := nproc / fx in
  if negb (nx mod fx =? 0) || negb (nz mod fy =? 0) then st else
  if (nx / fx <? min_block) || (nz / fy <? min_block) then st else
  if fx * fy >? best_procs st then mkSearch (fx, fy) (fx * fy) else st.

(** The two loops as plain folds over [step]. *)
Definition scan_nproc (nx nz min_block : Z) (st : search) (nproc : Z)
    : search :=
  fold_left (step nx nz min_block nproc) (Py.range 1 (nproc + 1)) st.

Definition scan (nx nz min_block max_cores : Z) : search :=
  fold_left (scan_nproc nx nz min_block) (Py.range 1 (max_cores + 1)) search0.

(** What the search keeps true of its state: [best_procs] is the product of
    the pair in [best], which is the initial [(1, 1)] or a feasible pair of
    positive factors within the budget. *)
Definition search_inv (nx nz min_block max_cores : Z) (st : search) : Prop :=
  best_procs st = fst (best st) * snd (best st) /\
  1 <= fst (best st) /\ 1 <= snd (best st) /\
  (best st = (1, 1) \/
   (feasible nx nz min_block (fst (best st)) (snd (best st)) /\
    best_procs st <= max_cores)).

End Decomp.

(* ================================================================== *)
(** ** NumPy: 2-D arrays, [np.pad], [np.arange], [reshape] *)
(* ================================================================== *)

Module Np.

(** The element types the pipeline meets.  A [float32] array stores values
    that are also binary64 values, so one carrier serves both. *)
Inductive dtype : Type := float32 | float64.

(** A 2-D [ndarray]: its dtype, its shape [(nrows, ncols)] (kept apart from
    the data, since an axis may be empty) and its rows. *)
Record ndarray : Type := mkArray {
  adtype : dtype;
  nrows : nat;
  ncols : nat;
  rows : list (list float)
}.

(** The data agrees with the shape. *)
Definition wf (a : ndarray) : Prop :=
  length (rows a) = nrows a /\
  Forall (fun r => length r = ncols a) (rows a).

(** [a.shape] *)
Definition shape (a : ndarray) : Z * Z :=
  (Z.of_nat (nrows a), Z.of_nat (ncols a)).


(** The modes of [np.pad] modelled here: ["edge"], the default of
    [pad_model_to_multiple], and ["constant"] (zero fill). *)
Inductive pad_mode : Type := edge | constant.

(** [before] copies of [lo], the list, [after] copies of [hi]. *)
Definition pad_list {A : Type} (before after : nat) (lo hi : A)
    (l : list A) : list A :=
  repeat lo before ++ l ++ repeat hi after.

(** Edge replication along one axis: the first and last items repeat. *)
Definition pad_edge {A : Type} (d : A) (before after : nat) (l : list A)
    : list A :=
  pad_list before after (hd d l) (last l d) l.

(** [np.pad(a, ((l, r), (t, b)), mode=mode)].  Negative widths raise
    [ValueError]; so does ["edge"] when it has to extend an empty axis. *)
Definition pad (a : ndarray) (l r t b : Z) (mode : pad_mode)
    : result ndarray :=
  if (l <? 0) || (r <? 0) || (t <? 0) || (b <? 0) then Raise ValueError else
  let nl := Z.to_nat l in let nr := Z.to_nat r in
  let nt := Z.to_nat t in let nb := Z.to_nat b in
  let shaped := mkArray (adtype a) (nl + nrows a + nr) (nt + ncols a + nb) in
  match mode with
  | constant =>
      let zrow := repeat 0%float (nt + ncols a + nb) in
      Ok (shaped
            (pad_list nl nr zrow zrow
               (map (pad_list nt nb 0%float 0%float) (rows a))))
  | edge =>
      if (Nat.eqb (nrows a) 0 && negb ((l =? 0) && (r =? 0)))
         || (Nat.eqb (ncols a) 0 && negb ((t =? 0) && (b =? 0)))
      then Raise ValueError
      else Ok (shaped
                 (pad_edge [] nl nr (map (pad_edge 0%float nt nb) (rows a))))
  end.

(** An integer index as a float ([int64] to [float64]); indices are
    non-negative and far below 2^63. *)
Definition of_int (i : Z) : float := PrimFloat.of_uint63 (Uint63.of_Z i).

(** [np.arange(n) * d]; [np.arange] of a non-positive count is empty. *)
Definition arange_times (n : Z) (d : float) : list float :=
  map (fun k => (of_int (Z.of_nat k) * d)%float) (seq 0 (Z.to_nat n)).

(** [v[-1]] on a 1-D array. *)
Definition last_item (v : list float) : result float :=
  match v with
  | [] => Raise IndexError
  | x :: v' => Ok (last v' x)
  end.

(** [v[i]] with Python's wrap-around of a negative index; the callers keep
    [i] within [-len, len). *)
Definition getitem {A : Type} (d : A) (v : list A) (i : Z) : A :=
  nth (Z.to_nat (if i <? 0 then i + Z.of_nat (length v) else i)) v d.

(** [count] rows of [width] items each, cut off the front of [flat]. *)
Fixpoint chunks (count width : nat) (flat : list float) : list (list float) :=
  match count with
  | O => []
  | S c => firstn width flat :: chunks c width (skipn width flat)
  end.

(** [flat.reshape(a, b)] of a 1-D float64 array: one dimension may be [-1]
    and is then inferred; any other mismatch raises [ValueError]. *)
Definition reshape (flat : list float) (a b : Z) : result ndarray :=
  let n := Z.of_nat (length flat) in
  let build (a' b' : Z) : result ndarray :=
    if a' * b' =? n
    then Ok (mkArray float64 (Z.to_nat a') (Z.to_nat b')
               (chunks (Z.to_nat a') (Z.to_nat b') flat))
    else Raise ValueError in
  if (a <? -1) || (b <? -1) then Raise ValueError
  else if (a =? -1) && (b =? -1) then Raise ValueError
  else if a =? -1 then
    (if (b =? 0) || negb (n mod b =? 0) then Raise ValueError
     else build (n / b) b)
  else if b =? -1 then
    (if (a =? 0) || negb (n mod a =? 0) then Raise ValueError
     else build a (n / a))
  else build a b.

(** The integer part of [Prim2SF]'s mantissa-exponent pair, rounded half to
    even. *)
Definition round_half_even (m e : Z) : Z :=
  if 0 <=? e then m * 2 ^ e
  else
    let d := 2 ^ (- e) in
    let q := m / d in
    match (2 * (m mod d)) ?= d with
    | Lt => q
    | Gt => q + 1
    | Eq => if Z.even q then q else q + 1
    end.

(** [int(round(x))] for a [float64] scalar: NaN raises [ValueError], an
    infinity [OverflowError], a finite value rounds half to even. *)
Definition int_round (x : float) : result Z :=
  match Prim2SF x with
  | S754_nan => Raise ValueError
  | S754_infinity _ => Raise OverflowError
  | S754_zero _ => Ok 0
  | S754_finite s m e =>
      let k := round_half_even (Z.pos m) e in
      Ok (if s then - k else k)
  end.

End Np.

(* ================================================================== *)
(** ** SciPy: [RegularGridInterpolator] on a 2-D grid

    The part [resample_model] uses: the default method (["linear"]) with
    [bounds_error=False] and [fill_value=None], under which a query outside
    the grid is not rejected and not filled but evaluated with the nearest
    edge cell's linear form. *)
(* ================================================================== *)

Module Scipy.

(** [rel] holds between every item and the next one. *)
Fixpoint adjacent (rel : float -> float -> bool) (p : list float) : bool :=
  match p with
  | a :: (b :: _) as t => rel a b && adjacent rel t
  | _ => true
  end.

(** [np.all(p[1:] > p[:-1])] and [np.all(p[1:] < p[:-1])] *)
Definition ascending (p : list float) : bool :=
  adjacent (fun a b => (a <? b)%float) p.
Definition descending (p : list float) : bool :=
  adjacent (fun a b => (b <? a)%float) p.

(** The interpolator object: both axes ascending, and the values. *)
Record interpolator : Type := mkInterp {
  grid_x : list float;
  grid_z : list float;
  values : list (list float)
}.

(** [RegularGridInterpolator((x, z), values, bounds_error=False,
    fill_value=None)]: an axis that is neither strictly ascending nor
    strictly descending raises [ValueError]; a descending axis is flipped,
    and the values with it. *)
Definition RegularGridInterpolator (x z : list float)
    (vals : list (list float)) : result interpolator :=
  let* (gx, v1) :=
    (if ascending x then Ok (x, vals)
     else if descending x then Ok (rev x, rev vals)
     else Raise ValueError) in
  let* (gz, v2) :=
    (if ascending z then Ok (z, v1)
     else if descending z then Ok (rev z, map (@rev float) v1)
     else Raise ValueError) in
  Ok (mkInterp gx gz v2).

(** NumPy's sorting order on floats: NaN after everything else. *)
Definition np_lt (a x : float) : bool :=
  (a <? x)%float || (PrimFloat.is_nan x && negb (PrimFloat.is_nan a)).

(** [np.searchsorted(grid, x)] (left side) on an ascending grid: the number
    of grid points that sort before [x]. *)
Definition searchsorted (grid : list float) (x : float) : Z :=
  Z.of_nat (length (filter (fun g => np_lt g x) grid)).

(** The cell with lower corner [i] and the normalised distance of [x] from
    its lower edge; a cell of zero width gives 0. *)
Definition cell_at (grid : list float) (i : Z) (x : float) : Z * float :=
  let lo := Np.getitem nan grid i in
  let denom := (Np.getitem nan grid (i + 1) - lo)%float in
  let y := if negb (denom =? 0)%float then ((x - lo) / denom)%float
           else 0%float in
  (i, y).

(** One axis of [_find_indices]: the cell index is clipped to
    [0 .. len - 2]; the normalised distance is not clipped, and falls below
    0 or above 1 outside the grid. *)
Definition find_index (grid : list float) (x : float) : Z * float :=
  let n := Z.of_nat (length grid) in
  let i0 := searchsorted grid x - 1 in
  let i1 := if i0 <? 0 then 0 else i0 in
  let i := if i1 >? n - 2 then n - 2 else i1 in
  cell_at grid i x.


(** [values[i, j]] *)
Definition value_at (v : list (list float)) (i j : Z) : float :=
  Np.getitem nan (Np.getitem [] v i) j.

(** The bilinear form of the cell with lower corner [(i, j)] at the
    normalised distances [(yx, yz)], summed over the four corners in the
    order of [_evaluate_linear]. *)
Definition bilinear (v : list (list float)) (i j : Z) (yx yz : float)
    : float :=
  let w (a b : float) : float := (1 * a * b)%float in
  (0 + value_at v i j * w (1 - yx) (1 - yz)
     + value_at v i (j + 1) * w (1 - yx) yz
     + value_at v (i + 1) j * w yx (1 - yz)
     + value_at v (i + 1) (j + 1) * w yx yz)%float.

(** [interp([[x, z]])[0]] *)
Definition eval (f : interpolator) (x z : float) : float :=
  let '(i, yx) := find_index (grid_x f) x in
  let '(j, yz) := find_index (grid_z f) z in
  bilinear (values f) i j yx yz.

End Scipy.

(* ================================================================== *)
(** ** model_utils.py *)
(* ================================================================== *)

Module ModelUtils.

Import Np.

(** *** [resample_model] (lines 63-112) *)

(** [np.stack([Xn.ravel(), Zn.ravel()], axis=-1)] for
    [Xn, Zn = np.meshgrid(xs, zs, indexing="ij")]: the points [(x, z)], the
    first coordinate varying slowest. *)
Definition mesh_points (xs zs : list float) : list (float * float) :=
  flat_map (fun x => map (fun z => (x, z)) zs) xs.

Definition resample_model (model : ndarray) (dx dz dh : float)
    : result ndarray :=
  if (dx =? dh)%float && (dz =? dh)%float then Ok model else
  let '(nx_old, nz_old) := shape model in
  let x_old := arange_times nx_old dx in
  let z_old := arange_times nz_old dz in
  let* x_last := last_item x_old in
  let* kx := int_round (x_last / dh) in
  let nx_new := kx + 1 in
  let* z_last := last_item z_old in
  let* kz := int_round (z_last / dh) in
  let nz_new := kz + 1 in
  let* interp := Scipy.RegularGridInterpolator x_old z_old (rows model) in
  let pts := mesh_points (arange_times nx_new dh) (arange_times nz_new dh) in
  let flat := map (fun p => Scipy.eval interp (fst p) (snd p)) pts in
  reshape flat nx_new nz_new.

(** The interpolator lines 96-101 build when both old axes ascend. *)
Definition old_grid (model : ndarray) (dx dz : float) : Scipy.interpolator :=
  Scipy.mkInterp (arange_times (fst (shape model)) dx)
    (arange_times (snd (shape model)) dz) (rows model).

(** The inputs on which the resampling path runs to its end: a non-empty
    model, axes [i*dx] and [j*dz] that increase strictly, and extents
    [(n-1)*d / dh] that round to integers [kx, kz >= 0].  Positive finite
    spacings give all of this unless a product or quotient overflows. *)
Record resamplable (model : ndarray) (dx dz dh : float) (kx kz : Z)
    : Prop := mkResamplable {
  rs_rows : (1 <= nrows model)%nat;
  rs_cols : (1 <= ncols model)%nat;
  rs_x_old : Scipy.ascending (arange_times (fst (shape model)) dx) = true;
  rs_z_old : Scipy.ascending (arange_times (snd (shape model)) dz) = true;
  rs_kx : int_round (of_int (fst (shape model) - 1) * dx / dh) = Ok kx;
  rs_kz : int_round (of_int (snd (shape model) - 1) * dz / dh) = Ok kz;
  rs_kx_nonneg : 0 <= kx;
  rs_kz_nonneg : 0 <= kz
}.



(** A two-by-two model of velocities on a 1 m grid. *)
Definition model_2_2 : ndarray :=
  mkArray float32 2 2 [[1500; 1500]; [2500; 2500]]%float.

(** *** [pad_model_to_multiple] *)

(** [int(np.ceil(n / multiple) * multiple)].  The quotient, its ceiling and
    the product are float64 values; they are exact, and the result is the
    integer written here, while [n + |multiple|] stays below 2^53, which
    array dimensions do. *)
Definition ceil_to_multiple (n multiple : Z) : result Z :=
  if multiple =? 0 then Raise ZeroDivisionError
  else Ok (- ((- n) / multiple) * multiple).


(** The padding geometry both definitions compute from the shape:
    [(pad_left, pad_right, pad_top, pad_bot)]. *)
Definition pad_widths (nx nz multiple : Z) : result (Z * Z * Z * Z) :=
  let* nx_pad := ceil_to_multiple nx multiple in
  let* nz_pad := ceil_to_multiple nz multiple in
  let pad_x := nx_pad - nx in
  let pad_z := nz_pad - nz in
  let pad_left := pad_x / 2 in
  let pad_right := pad_x - pad_left in
  let pad_top := pad_z / 2 in
  let pad_bot := pad_z - pad_top in
  Ok (pad_left, pad_right, pad_top, pad_bot).

(** What a call can return: an array, an [int], or a tuple of values. *)
#[warnings="-register-all"]
Inductive value : Type :=
| VArray (a : ndarray)
| VInt (z : Z)
| VTuple (vs : list value).

(** [[f(m) for m in models]], stopping at the first exception. *)
Fixpoint map_result {A B : Type} (f : A -> result B) (l : list A)
    : result (list B) :=
  match l with
  | [] => Ok []
  | x :: l' => let* y := f x in let* ys := map_result f l' in Ok (y :: ys)
  end.

(** The first definition (lines 115-158):
    [def pad_model_to_multiple( *models, multiple, mode="edge")]. *)
Module Def115.

Definition pad_model_to_multiple (models : list ndarray) (multiple : Z)
    (mode : pad_mode) : result value :=
  let* m0 := match models with
             | [] => Raise IndexError
             | m :: _ => Ok m
             end in
  let '(nx, nz) := shape m0 in
  let* (pad_left, pad_right, pad_top, pad_bot) :=
    pad_widths nx nz multiple in
  let* padded :=
    map_result (fun m => pad m pad_left pad_right pad_top pad_bot mode)
      models in
  match padded with
  | [p] => Ok (VArray p)
  | _ => Ok (VTuple (map VArray padded))
  end.

End Def115.

(** The second definition (lines 219-257):
    [def pad_model_to_multiple(model, multiple, mode="edge")]. *)
Module Def219.

Definition pad_model_to_multiple (model : ndarray) (multiple : Z)
    (mode : pad_mode) : result (ndarray * (Z * Z * Z * Z)) :=
  let '(nx, nz) := shape model in
  let* (pad_left, pad_right, pad_top, pad_bot) :=
    pad_widths nx nz multiple in
  let* padded := pad model pad_left pad_right pad_top pad_bot mode in
  Ok (padded, (pad_left, pad_right, pad_top, pad_bot)).

End Def219.

(** A model of shape [(17, 33)], as [read_sgy] would return it. *)
Definition model_17_33 : ndarray :=
  mkArray float32 17 33 (repeat (repeat 1500%float 33) 17).

(** *** The module's namespace

    A call [pad_model_to_multiple( *models, multiple=multiple, mode=mode)]:
    the models positional, [multiple] by keyword (the first signature
    accepts it no other way), [mode] by keyword or left out. *)
Record call : Type := mkCall {
  c_models : list ndarray;
  c_multiple : Z;
  c_mode : option pad_mode
}.

Definition mode_or_default (m : option pad_mode) : pad_mode :=
  match m with
  | Some m' => m'
  | None => edge
  end.

(** Binding the call to [( *models, multiple, mode="edge")]: every
    positional argument goes to [models]. *)
Definition call_def115 (c : call) : result value :=
  Def115.pad_model_to_multiple (c_models c) (c_multiple c)
    (mode_or_default (c_mode c)).

(** Binding the call to [(model, multiple, mode="edge")]: the positional
    arguments fill [model], [multiple], [mode] in turn.  With none, [model]
    is missing; with two or more, [multiple] is already bound when the
    keyword arrives (or there are too many).  Each is a [TypeError] raised
    before the body runs. *)
Definition call_def219 (c : call) : result value :=
  match c_models c with
  | [model] =>
      let* (padded, (l, r, t, b)) :=
        Def219.pad_model_to_multiple model (c_multiple c)
          (mode_or_default (c_mode c)) in
      Ok (VTuple [VArray padded; VTuple [VInt l; VInt r; VInt t; VInt b]])
  | _ => Raise TypeError
  end.

(** The [def] statements naming the padder, in file order. *)
Definition defs : list (String.string * (call -> result value)) :=
  [ ("pad_model_to_multiple"%string, call_def115);
    ("pad_model_to_multiple"%string, call_def219) ].

(** Running a [def] binds its name, replacing an earlier binding. *)
Definition exec_def (ns : list (String.string * (call -> result value)))
    (d : String.string * (call -> result value))
    : list (String.string * (call -> result value)) :=
  d :: filter (fun b => negb (String.eqb (fst b) (fst d))) ns.

(** The namespace once the module has been imported. *)
Definition namespace : list (String.string * (call -> result value)) :=
  fold_left exec_def defs [].

Definition lookup (name : String.string) : option (call -> result value) :=
  match find (fun b => String.eqb (fst b) name) namespace with
  | Some b => Some (snd b)
  | None => None
  end.

(** [sofi2dpy.pad_model_to_multiple(...)], as a caller reaches it. *)
Definition pad_model_to_multiple (c : call) : result value :=
  match lookup "pad_model_to_multiple"%string with
  | Some f => f c
  | None => Raise AttributeError
  end.

End ModelUtils.

(* ================================================================== *)
(** ** The order of the search (model_utils.py, lines 193-213) *)
(* ================================================================== *)

Module SearchOrder.

(** The candidates [(nproc, fx)] the loops have tried when the outer loop is
    at [nproc] and the inner loop is about to try [k]: every [fx] in
    [1 .. n] of an earlier [n], and the [fx] below [k] of this one. *)
Definition tried (nproc k n a : Z) : Prop :=
  1 <= a <= n /\ (n < nproc \/ (n = nproc /\ a < k)).

(** [best] is the first of the tried candidates to reach [best_procs]: it
    is the initial [(1, 1)] or a tried candidate, no tried feasible pair
    has a larger product, and none with the same product has a smaller
    [fx]. *)
Definition first_best (nx nz min_block nproc k : Z) (st : Decomp.search)
    : Prop :=
  Decomp.best_procs st = fst (Decomp.best st) * snd (Decomp.best st) /\
  1 <= fst (Decomp.best st) /\ 1 <= snd (Decomp.best st) /\
  (Decomp.best st = (1, 1) \/
   tried nproc k (Decomp.best_procs st) (fst (Decomp.best st))) /\
  forall a b, 1 <= a -> 1 <= b -> tried nproc k (a * b) a ->
    Decomp.feasible nx nz min_block a b ->
    a * b <= Decomp.best_procs st /\
    (a * b = Decomp.best_procs st -> fst (Decomp.best st) <= a).

End SearchOrder.

(* ================================================================== *)
(** ** Positions in a padded axis *)
(* ================================================================== *)

Module Border.



End Border.

(* ================================================================== *)
(** ** config.py: the control-file blocks

    Each dataclass is a record in a module of its own name, with its
    defaults and its [to_dict].  An [OrderedDict] is the list of its items in
    insertion order.  [str] of an [int] is its decimal numeral; [str] of a
    [float] and the format [.6f] are Python's own and are taken as
    parameters ([str_float], [format_6f]). *)
(* ================================================================== *)

Module Config.

Local Open Scope string_scope.
Local Set Warnings "-inexact-float".

(** [str(n)] for an [int] *)
Definition str_int (n : Z) : String.string :=
  DecimalString.NilZero.string_of_int (Z.to_int n).

(** [int(s)] for a plain decimal numeral [s] *)
Definition int_of_str (s : String.string) : option Z :=
  option_map Z.of_int (DecimalString.NilZero.int_of_string s).

Module OrderedDict.

Definition t : Type := list (String.string * String.string).

(** [d[k] = v]: an existing key keeps its place and takes the new value, a
    new key goes to the end. *)
Fixpoint setitem (d : t) (k v : String.string) : t :=
  match d with
  | [] => [(k, v)]
  | (k', v') :: d' =>
      if String.eqb k' k then (k', v) :: d'
      else (k', v') :: setitem d' k v
  end.

(** [d.update(other)] *)
Definition update (d other : t) : t :=
  fold_left (fun acc kv => setitem acc (fst kv) (snd kv)) other d.

(** [OrderedDict({k1: v1, ...})], the items given in the order written. *)
Definition of_items (items : list (String.string * String.string)) : t :=
  update [] items.

(** [d.get(k)] *)
Fixpoint get (d : t) (k : String.string) : option String.string :=
  match d with
  | [] => None
  | (k', v) :: d' => if String.eqb k' k then Some v else get d' k
  end.

(** [list(d.keys())] *)
Definition keys (d : t) : list String.string := map fst d.

End OrderedDict.

(** *** The dataclasses and their defaults *)

Module DomainDecomposition.
Record t : Type := mk { nprocx : Z; nprocy : Z }.
Definition default : t := mk 1 1.
End DomainDecomposition.

Module FDOrder.
Record t : Type := mk { fdorder : Z; fdorder_time : Z; max_rel_error : float }.
Definition default : t := mk 4 2 0.0.
End FDOrder.

Module Grid2D.
Record t : Type := mk { nx : Z; ny : Z; dh : float }.
End Grid2D.

Module TimeStepping.
Record t : Type := mk { time : float; dt : float }.
End TimeStepping.

Module WaveEquation.
Record t : Type := mk { weq : String.string }.
Definition default : t := mk "EL_ISO".
End WaveEquation.

Module Source.
Record t : Type := mk {
  source_shape : Z;
  signal_file : String.string;
  source_type : Z;
  srcrec : Z;
  source_file : String.string;
  run_multiple_shots : Z;
  plane_wave_depth : float;
  plane_wave_angle : float;
  ts : float
}.
Definition default : t :=
  mk 1 "signal_mseis.tz" 1 1 "./Geom/source.dat" 1 2106.0 0.0 0.2.
End Source.

Module Sigout.
Record t : Type := mk {
  sigout : Z;
  sigout_file : String.string;
  sigout_format : Z
}.
Definition default : t := mk 1 "./OUTPUT/shot" 3.
End Sigout.

Module Model.
Record t : Type := mk {
  readmod : Z;
  mfile : String.string;
  write_modelfiles : Z
}.
Definition default : t := mk 1 "./model/SEAM" 0.
End Model.

Module QApproximation.
Record t : Type := mk { L : Z; f_ref : float; fl1 : float }.
Definition default : t := mk 0 50.0 50.0.
End QApproximation.

Module Boundary.
Record t : Type := mk {
  free_surf : Z;
  boundary : Z;
  fw : Z;
  abs_type : Z;
  npower : float;
  k_max_cpml : float;
  vppml : float;
  fpml : float;
  damping : float
}.
Definition default : t := mk 1 0 40 1 4.0 1.0 4800.0 30.0 8.0.
End Boundary.

Module Snapshots.
Record t : Type := mk {
  snap : Z;
  tsnap1 : float;
  tsnap2 : float;
  tsnapinc : float;
  idx : Z;
  idy : Z;
  snap_format : Z;
  snap_file : String.string
}.
Definition default : t := mk 1 0.0 0.0 0.04 1 1 3 "./OUTPUT/snap".
End Snapshots.

Module Receiver.
Record t : Type := mk {
  seismo : Z;
  readrec : Z;
  rec_file : String.string;
  refrec : String.string;
  rec1 : String.string;
  rec2 : String.string;
  ngeoph : Z;
  rec_array : Z;
  rec_array_depth : float;
  rec_array_dist : float;
  drx : Z
}.
Definition default : t :=
  mk 4 1 "./Geom/receiver.dat" "0.0 , 0.0" "100.0 , 15.0" "21850.0 , 1.0"
    120 0 70.0 40.0 4.
End Receiver.

Module Seismograms.
Record t : Type := mk {
  ndt : Z;
  seis_format : Z;
  seis_file : String.string
}.
Definition default : t := mk 10 3 "./OUTPUT/seis".
End Seismograms.

Module Logging.
Record t : Type := mk {
  log_file : String.string;
  log : Z;
  log_verbosity : String.string;
  out_timestep_info : Z
}.
Definition default : t := mk "./log/sofi2d.log" 0 "INFO" 100.
End Logging.

Module Sofi2DConfig.
Record t : Type := mk {
  domain : DomainDecomposition.t;
  fd : FDOrder.t;
  grid : Grid2D.t;
  time : TimeStepping.t;
  weq : WaveEquation.t;
  source : Source.t;
  sigout : Sigout.t;
  model : Model.t;
  q : QApproximation.t;
  boundary : Boundary.t;
  snapshots : Snapshots.t;
  receiver : Receiver.t;
  seismograms : Seismograms.t;
  logging : Logging.t
}.
End Sofi2DConfig.

(** *** [to_dict], [to_ordered_json], [make_default_config] *)

Section Builtins.

(** [str(x)] for a [float], and [f"{x:.6f}"]. *)
Variable str_float : float -> String.string.
Variable format_6f : float -> String.string.

Definition DomainDecomposition_to_dict (self : DomainDecomposition.t)
    : OrderedDict.t :=
  OrderedDict.of_items
    [ ("Domain Decomposition", "comment");
      ("NPROCX", str_int (DomainDecomposition.nprocx self));
      ("NPROCY", str_int (DomainDecomposition.nprocy self)) ].

Definition FDOrder_to_dict (self : FDOrder.t) : OrderedDict.t :=
  OrderedDict.of_items
    [ ("FD order", "comment");
      ("FDORDER", str_int (FDOrder.fdorder self));
      ("FDORDER_TIME", str_int (FDOrder.fdorder_time self));
      ("MAXRELERROR", str_float (FDOrder.max_rel_error self)) ].

Definition Grid2D_to_dict (self : Grid2D.t) : OrderedDict.t :=
  OrderedDict.of_items
    [ ("2-D Grid", "comment");
      ("NX", str_int (Grid2D.nx self));
      ("NY", str_int (Grid2D.ny self));
      ("DH", str_float (Grid2D.dh self)) ].

Definition TimeStepping_to_dict (self : TimeStepping.t) : OrderedDict.t :=
  OrderedDict.of_items
    [ ("Time Stepping", "comment");
      ("TIME", str_float (TimeStepping.time self));
      ("DT", str_float (TimeStepping.dt self)) ].

Definition WaveEquation_to_dict (self : WaveEquation.t) : OrderedDict.t :=
  OrderedDict.of_items
    [ ("Wave Equation", "comment");
      ("WEQ", WaveEquation.weq self);
      ("WEQ values: AC_ISO, AC_VTI, AC_TTI", "comment");
      ("WEQ values: VAC_ISO, VAC_VTI, VAC_TTI", "comment");
      ("WEQ values: EL_ISO, EL_VTI, EL_TTI", "comment");
      ("WEQ values: VEL_ISO, VEL_VTI, VEL_TTI", "comment") ].

Definition Source_to_dict (self : Source.t) : OrderedDict.t :=
  OrderedDict.of_items
    [ ("Source", "comment");
      ("SOURCE_SHAPE", str_int (Source.source_shape self));
      ("SOURCE_SHAPE values: ricker=1, fumue=2, file=3, sin3=4, berlage=5, klauder=6",
       "comment");
      ("SIGNAL_FILE", Source.signal_file self);
      ("SOURCE_TYPE", str_int (Source.source_type self));
      ("SOURCE_TYPE values: explosive=1, fx=2, fy=3, custom=4", "comment");
      ("SRCREC", str_int (Source.srcrec self));
      ("SRCREC values: read from SOURCE_FILE=1, plane wave=2", "comment");
      ("SOURCE_FILE", Source.source_file self);
      ("RUN_MULTIPLE_SHOTS", str_int (Source.run_multiple_shots self));
      ("PLANE_WAVE_DEPTH", str_float (Source.plane_wave_depth self));
      ("PLANE_WAVE_ANGLE", str_float (Source.plane_wave_angle self));
      ("TS", str_float (Source.ts self)) ].

Definition Sigout_to_dict (self : Sigout.t) : OrderedDict.t :=
  OrderedDict.of_items
    [ ("SIGOUT", str_int (Sigout.sigout self));
      ("Output source wavelet: yes=1, no=else", "comment");
      ("SIGOUT_FILE", Sigout.sigout_file self);
      ("SIGOUT_FORMAT", str_int (Sigout.sigout_format self));
      ("Supported formats: SU=1, ASCII=2, BINARY=3", "comment") ].

Definition Model_to_dict (self : Model.t) : OrderedDict.t :=
  OrderedDict.of_items
    [ ("Model", "comment");
      ("READMOD", str_int (Model.readmod self));
      ("MFILE", Model.mfile self);
      ("WRITE_MODELFILES", str_int (Model.write_modelfiles self)) ].

Definition QApproximation_to_dict (self : QApproximation.t)
    : OrderedDict.t :=
  OrderedDict.of_items
    [ ("Q-approximation", "comment");
      ("L", str_int (QApproximation.L self));
      ("F_REF", str_float (QApproximation.f_ref self));
      ("FL1", str_float (QApproximation.fl1 self)) ].

Definition Boundary_to_dict (self : Boundary.t) : OrderedDict.t :=
  OrderedDict.of_items
    [ ("Boundary", "comment");
      ("FREE_SURF", str_int (Boundary.free_surf self));
      ("BOUNDARY", str_int (Boundary.boundary self));
      ("FW", str_int (Boundary.fw self));
      ("ABS_TYPE", str_int (Boundary.abs_type self));
      ("ABS_TYPE values: CPML=1, damping=2", "comment");
      ("CPML parameters", "comment");
      ("NPOWER", str_float (Boundary.npower self));
      ("K_MAX_CPML", str_float (Boundary.k_max_cpml self));
      ("VPPML", str_float (Boundary.vppml self));
      ("FPML", str_float (Boundary.fpml self));
      ("Damping boundary parameters", "comment");
      ("DAMPING", str_float (Boundary.damping self)) ].

Definition Snapshots_to_dict (self : Snapshots.t) : OrderedDict.t :=
  OrderedDict.of_items
    [ ("Snapshots", "comment");
      ("SNAP", str_int (Snapshots.snap self));
      ("TSNAP1", format_6f (Snapshots.tsnap1 self));
      ("TSNAP2", format_6f (Snapshots.tsnap2 self));
      ("TSNAPINC", format_6f (Snapshots.tsnapinc self));
      ("IDX", str_int (Snapshots.idx self));
      ("IDY", str_int (Snapshots.idy self));
      ("SNAP_FORMAT", str_int (Snapshots.snap_format self));
      ("SNAP_FILE", Snapshots.snap_file self) ].

Definition Receiver_to_dict (self : Receiver.t) : OrderedDict.t :=
  OrderedDict.of_items
    [ ("Receiver", "comment");
      ("SEISMO", str_int (Receiver.seismo self));
      ("READREC", str_int (Receiver.readrec self));
      ("REC_FILE", Receiver.rec_file self);
      ("REFRECX, REFRECY", Receiver.refrec self);
      ("XREC1,YREC1", Receiver.rec1 self);
      ("XREC2,YREC2", Receiver.rec2 self);
      ("NGEOPH", str_int (Receiver.ngeoph self));
      ("Receiver array", "comment");
      ("REC_ARRAY", str_int (Receiver.rec_array self));
      ("REC_ARRAY_DEPTH", str_float (Receiver.rec_array_depth self));
      ("REC_ARRAY_DIST", str_float (Receiver.rec_array_dist self));
      ("DRX", str_int (Receiver.drx self)) ].

Definition Seismograms_to_dict (self : Seismograms.t) : OrderedDict.t :=
  OrderedDict.of_items
    [ ("Seismograms", "comment");
      ("NDT", str_int (Seismograms.ndt self));
      ("SEIS_FORMAT", str_int (Seismograms.seis_format self));
      ("SEIS_FILE", Seismograms.seis_file self) ].

Definition Logging_to_dict (self : Logging.t) : OrderedDict.t :=
  OrderedDict.of_items
    [ ("Monitoring the simulation", "comment");
      ("LOG_FILE", Logging.log_file self);
      ("LOG", str_int (Logging.log self));
      ("LOG_VERBOSITY", Logging.log_verbosity self);
      ("OUT_TIMESTEP_INFO", str_int (Logging.out_timestep_info self)) ].

(** The blocks [to_ordered_json] loops over, in its order (lines 367-381);
    [self.sigout] is not among them. *)
Definition blocks (self : Sofi2DConfig.t) : list OrderedDict.t :=
  [ DomainDecomposition_to_dict (Sofi2DConfig.domain self);
    FDOrder_to_dict (Sofi2DConfig.fd self);
    Grid2D_to_dict (Sofi2DConfig.grid self);
    TimeStepping_to_dict (Sofi2DConfig.time self);
    WaveEquation_to_dict (Sofi2DConfig.weq self);
    Source_to_dict (Sofi2DConfig.source self);
    Model_to_dict (Sofi2DConfig.model self);
    QApproximation_to_dict (Sofi2DConfig.q self);
    Boundary_to_dict (Sofi2DConfig.boundary self);
    Snapshots_to_dict (Sofi2DConfig.snapshots self);
    Receiver_to_dict (Sofi2DConfig.receiver self);
    Seismograms_to_dict (Sofi2DConfig.seismograms self);
    Logging_to_dict (Sofi2DConfig.logging self) ].

(** [Sofi2DConfig.to_ordered_json] *)
Definition to_ordered_json (self : Sofi2DConfig.t) : OrderedDict.t :=
  fold_left OrderedDict.update (blocks self) [].

(** [make_default_config(nx, ny, dh)] *)
Definition make_default_config (nx ny : Z) (dh : float) : Sofi2DConfig.t :=
  Sofi2DConfig.mk
    DomainDecomposition.default
    FDOrder.default
    (Grid2D.mk nx ny dh)
    (TimeStepping.mk 2.0 0.001)
    WaveEquation.default
    Source.default
    Sigout.default
    Model.default
    QApproximation.default
    Boundary.default
    Snapshots.default
    Receiver.default
    Seismograms.default
    Logging.default.

End Builtins.

End Config.

(* ================================================================== *)
(** ** Checking keys *)
(* ================================================================== *)

Module Keys.

(** No string occurs twice in the list. *)
Fixpoint distinct (l : list String.string) : bool :=
  match l with
  | [] => true
  | k :: l' => negb (existsb (String.eqb k) l') && distinct l'
  end.

End Keys.

(* ================================================================== *)
(** ** Text: lines and whitespace-separated fields *)
(* ================================================================== *)

Module Text.

Definition newline : Ascii.ascii := Ascii.ascii_of_nat 10.

(** The characters Python's [str.split()] treats as blanks. *)
Definition is_space (c : Ascii.ascii) : bool :=
  let n := Ascii.nat_of_ascii c in
  Nat.eqb n 32 || (Nat.leb 9 n && Nat.leb n 13).

Definition is_newline (c : Ascii.ascii) : bool := Ascii.eqb c newline.

Definition is_hash (c : Ascii.ascii) : bool :=
  Nat.eqb (Ascii.nat_of_ascii c) 35.

(** [s.split(sep)] for a one-character separator class: the pieces between
    separators, empty pieces included; always at least one piece. *)
Fixpoint split (sep : Ascii.ascii -> bool) (s : String.string)
    : list String.string :=
  match s with
  | String.EmptyString => [String.EmptyString]
  | String.String c s' =>
      if sep c then String.EmptyString :: split sep s'
      else match split sep s' with
           | [] => [String.String c String.EmptyString]
           | p :: ps => String.String c p :: ps
           end
  end.

Definition nonempty (s : String.string) : bool :=
  match s with
  | String.EmptyString => false
  | String.String _ _ => true
  end.

(** [s.split()]: the maximal runs of non-blank characters. *)
Definition fields (s : String.string) : list String.string :=
  filter nonempty (split is_space s).

(** The text before the first [#]. *)
Definition strip_comment (s : String.string) : String.string :=
  hd String.EmptyString (split is_hash s).

(** The text is cut at every newline. *)
Definition lines (s : String.string) : list String.string :=
  split is_newline s.

(** Every character of [s] satisfies [p]. *)
Fixpoint all_chars (p : Ascii.ascii -> bool) (s : String.string) : bool :=
  match s with
  | String.EmptyString => true
  | String.String c s' => p c && all_chars p s'
  end.

(** A single field: not empty, no blank, no [#]. *)
Definition is_field (s : String.string) : bool :=
  nonempty s && all_chars (fun c => negb (is_space c) && negb (is_hash c)) s.

End Text.

(* ================================================================== *)
(** ** output_utils.py

    Each function is modelled on the text of the one file it opens: a
    writer returns the text the file holds when the [with] block is left, a
    reader takes the text of the file.  The number formats and [float(s)]
    are Python's own and are taken as parameters. *)
(* ================================================================== *)

Module OutputUtils.

Section Builtins.

(** [f"{x:.6f}"], [f"{x:10.2f}"] and [float(s)] *)
Variable format_6f : float -> String.string.
Variable format_10_2f : float -> String.string.
Variable float_of_str : String.string -> option float.

Definition space : String.string :=
  String.String (Ascii.ascii_of_nat 32) String.EmptyString.
Definition nl : String.string := String.String Text.newline String.EmptyString.

(** *** [write_source_dat] (lines 17-48) *)

(** The line of one source [(x, z, td, fc, amp)]; a source of any other
    length fails to unpack. *)
Definition source_line (src : list float) : result String.string :=
  match src with
  | [x; z; td; fc; amp] =>
      let azimuth := 0%float in
      let stype := 1%float in
      Ok (String.concat space
            [format_10_2f x; format_10_2f z; format_10_2f td;
             format_10_2f fc; format_10_2f amp; format_10_2f azimuth;
             format_10_2f stype])
  | _ => Raise ValueError
  end.

(** The loop over the sources, from the text written so far: the text in
    the file at the end, and whether the loop ended normally. *)
Fixpoint write_sources (sources : list (list float)) (written : String.string)
    : String.string * result unit :=
  match sources with
  | [] => (written, Ok tt)
  | src :: rest =>
      match source_line src with
      | Ok line =>
          write_sources rest (String.append written (String.append line nl))
      | Raise e => (written, Raise e)
      end
  end.

(** [write_source_dat(fname, sources)]: the file is opened for writing,
    which empties it. *)
Definition write_source_dat (sources : list (list float))
    : String.string * result unit :=
  write_sources sources String.EmptyString.

(** *** [write_receiver_dat] (lines 51-71) *)

Definition receiver_line (xz : float * float) : String.string :=
  String.append (format_6f (fst xz))
    (String.append space (String.append (format_6f (snd xz)) nl)).

(** [write_receiver_dat(fname, rec_x, rec_z)]: the text written, or the
    [ValueError] raised before the file is opened. *)
Definition write_receiver_dat (rec_x rec_z : list float)
    : result String.string :=
  if negb (Nat.eqb (length rec_x) (length rec_z)) then Raise ValueError
  else Ok (String.concat String.EmptyString
             (map receiver_line (combine rec_x rec_z))).

(** *** [read_receiver_dat] (lines 74-98) *)

(** What [np.loadtxt] returns, by number of dimensions. *)
Inductive loaded : Type :=
| Scalar (x : float)
| Vector (v : list float)
| Matrix (rows : list (list float)) (ncols : nat).

Definition ndim (a : loaded) : nat :=
  match a with
  | Scalar _ => 0
  | Vector _ => 1
  | Matrix _ _ => 2
  end.

(** The fields of one line, as floats; a field that is no number raises
    [ValueError]. *)
Fixpoint parse_fields (fs : list String.string) : result (list float) :=
  match fs with
  | [] => Ok []
  | f :: fs' =>
      match float_of_str f with
      | Some x => let* xs := parse_fields fs' in Ok (x :: xs)
      | None => Raise ValueError
      end
  end.

(** The rows of the text: comments cut off, lines without fields skipped. *)
Definition text_rows (text : String.string) : list (list String.string) :=
  filter (fun fs => negb (Nat.eqb (length fs) 0))
    (map (fun l => Text.fields (Text.strip_comment l)) (Text.lines text)).

(** [np.loadtxt(fname)] with its defaults: rows of unequal length raise
    [ValueError]; a result with one row or one column loses that dimension,
    and a text without rows gives an empty 1-D array. *)
Definition loadtxt (text : String.string) : result loaded :=
  let* rows := ModelUtils.map_result parse_fields (text_rows text) in
  match rows with
  | [] => Ok (Vector [])
  | r0 :: _ =>
      let c := length r0 in
      if negb (forallb (fun r => Nat.eqb (length r) c) rows)
      then Raise ValueError
      else match rows, c with
           | [r], 1%nat => Ok (Scalar (hd 0%float r))
           | [r], _ => Ok (Vector r)
           | _, 1%nat => Ok (Vector (map (hd 0%float) rows))
           | _, _ => Ok (Matrix rows c)
           end
  end.

(** [data[:, k]] *)
Definition column (k : nat) (rows : list (list float)) : list float :=
  map (fun r => nth k r 0%float) rows.

Definition read_receiver_dat (text : String.string)
    : result (list float * list float) :=
  let* data := loadtxt text in
  match data with
  | Matrix rows ncols =>
      if (ncols <? 2)%nat then Raise ValueError
      else Ok (column 0 rows, column 1 rows)
  | _ => Raise ValueError
  end.

End Builtins.

End OutputUtils.

(* ================================================================== *)
(** ** model_utils.py: [read_sgy] (lines 21-42)

    Modelled on the stream [obspy.read] returns: a trace is the list of its
    samples, and its [stats.npts] is their number, as ObsPy keeps it. *)
(* ================================================================== *)

Module Sgy.

(** [x.astype(np.float32)] on one value: the nearest binary32 value, ties
    to even, an overflow going to infinity; kept here as the binary64 value
    equal to it. *)
Definition to_float32 (x : float) : float :=
  match Prim2SF x with
  | S754_finite s m e =>
      SF2Prim (binary_normalize 24 128 (if s then Z.neg m else Z.pos m) e s)
  | _ => x
  end.

(** [model[i, :] = data] for a row of [npts] samples: NumPy copies [data]
    of the same length, repeats a single sample over the row, and raises
    [ValueError] for any other length. *)
Definition assign_row (npts : nat) (data : list float)
    : result (list float) :=
  if Nat.eqb (length data) npts then Ok data
  else if Nat.eqb (length data) 1 then Ok (repeat (hd 0%float data) npts)
  else Raise ValueError.

Definition read_sgy (st : list (list float)) : result Np.ndarray :=
  let ntr := length st in
  match st with
  | [] => Raise IndexError
  | tr0 :: _ =>
      let npts := length tr0 in
      let* rows :=
        ModelUtils.map_result
          (fun tr => assign_row npts (map to_float32 tr)) st in
      Ok (Np.mkArray Np.float32 ntr npts rows)
  end.

End Sgy.

(* ================================================================== *)
(** ** A small instance of the number formats

    Two numerals are enough to run the writers and the reader: zero is
    written ["0.000000"], every other number ["1.000000"]. *)
(* ================================================================== *)

Module Sample.

Local Open Scope string_scope.

Definition format_6f (x : float) : String.string :=
  if (x =? 0)%float then "0.000000" else "1.000000".

Definition format_10_2f (x : float) : String.string :=
  if (x =? 0)%float then "      0.00" else "      1.00".

Definition float_of_str (s : String.string) : option float :=
  if String.eqb s "0.000000" then Some 0%float
  else if String.eqb s "1.000000" then Some 1%float
  else None.

(** What a number written by [format_6f] reads back as. *)
Definition read_back (x : float) : float :=
  if (x =? 0)%float then 0%float else 1%float.

End Sample.

(* ================================================================== *)
(** ** __init__.py: the package namespace (lines 14-65) *)
(* ================================================================== *)

Module Package.

Local Open Scope string_scope.

(** The names the [from ... import] statements bind, in order;
    [make_default_config] is bound as [load_config]. *)
Definition imported : list String.string :=
  [ "load_config";
    "read_sgy"; "save_bin"; "resample_model"; "pad_model_to_multiple";
    "suggest_domain_decomposition_sofi";
    "write_source_dat"; "write_receiver_dat";
    "plot_model"; "plot_model_with_geom" ].

Definition __all__ : list String.string :=
  [ "load_config"; "save_config"; "update_basic_params";
    "read_sgy"; "save_bin"; "resample_model"; "resample_model_iso";
    "recommend_dd"; "suggest_domain_decomposition";
    "write_source_dat"; "write_receiver_dat"; "set_sigout"; "set_snap";
    "plot_model"; "plot_model_with_geom" ].

(** [getattr(module, name)] on a module whose attributes are [ns]. *)
Definition getattr (ns : list String.string) (name : String.string)
    : result String.string :=
  if existsb (String.eqb name) ns then Ok name else Raise AttributeError.

(** [from sofi2dpy import *]: every name of [__all__] is looked up in the
    package, in order; the names bound in the importer on success. *)
Definition import_star (ns : list String.string)
    : result (list String.string) :=
  ModelUtils.map_result (getattr ns) __all__.

(** The names of [__all__] the package does not hold. *)
Definition unbound (ns : list String.string) : list String.string :=
  filter (fun name => negb (existsb (String.eqb name) ns)) __all__.

End Package.

(* ================================================================== *)
(** ** Proof automation *)
(* ================================================================== *)

(** Splits a conjunction into its parts, leaving defined predicates whole. *)
Ltac conjuncts := repeat match goal with |- _ /\ _ => split end.

(* ================================================================== *)
(** * Properties *)
(* ================================================================== *)

(** ** The exception monad and loops *)

Lemma range_In (lo hi x : Z) : In x (Py.range lo hi) <-> lo <= x < hi.
Proof.
  unfold Py.range. rewrite in_map_iff. split.
  - intros [k [<- Hk]]. apply in_seq in Hk. lia.
  - intros H. exists (Z.to_nat (x - lo)). split; [lia|].
    apply in_seq. lia.
Qed.

Lemma for_each_pure {S A : Type} (body : S -> A -> result S) (f : S -> A -> S)
    (xs : list A) :
  (forall s x, In x xs -> body s x = Ok (f s x)) ->
  forall s, Py.for_each xs body s = Ok (fold_left f xs s).
Proof.
  induction xs as [|x xs IH]; intros Hb s; simpl; [reflexivity|].
  rewrite Hb by (left; reflexivity). simpl.
  apply IH. intros s' x' Hx'. apply Hb. right; exact Hx'.
Qed.

Lemma fold_left_invariant {S A : Type} (f : S -> A -> S) (P : S -> Prop)
    (xs : list A) :
  (forall s x, In x xs -> P s -> P (f s x)) ->
  forall s, P s -> P (fold_left f xs s).
Proof.
  induction xs as [|x xs IH]; intros Hf s Hs; simpl; [exact Hs|].
  apply IH.
  - intros s' x' Hx'. apply Hf. right; exact Hx'.
  - apply Hf; [left; reflexivity | exact Hs].
Qed.

(** A measure that never decreases along a fold reaches any level that one
    of the folded items forces. *)
Lemma fold_left_reaches {S A : Type} (f : S -> A -> S) (m : S -> Z)
    (level : Z) (x0 : A) (xs : list A) :
  (forall s x, m s <= m (f s x)) ->
  (forall s, level <= m (f s x0)) ->
  In x0 xs ->
  forall s, level <= m (fold_left f xs s).
Proof.
  intros Hmono Hx0. induction xs as [|x xs IH]; intros Hin s; [destruct Hin|].
  simpl. destruct Hin as [-> | Hin].
  - specialize (Hx0 s).
    assert (Hgen : forall l s', m s' <= m (fold_left f l s')).
    { induction l as [|y l IHl]; intros s'; simpl; [lia|].
      specialize (IHl (f s' y)). specialize (Hmono s' y). lia. }
    specialize (Hgen xs (f s x0)). lia.
  - apply IH. exact Hin.
Qed.

(** ** Domain decomposition *)

Section Decomposition.

Variables nx nz min_block : Z.

(** A divisor of [nproc] in [1 .. nproc] leaves a quotient of at least 1. *)
Lemma cofactor_pos (nproc fx : Z) :
  1 <= fx <= nproc -> nproc mod fx = 0 -> 1 <= nproc / fx.
Proof.
  intros Hfx Hmod.
  apply Z.div_le_lower_bound; lia.
Qed.

(** On the values the loops feed it, the body raises nothing. *)
Lemma try_factor_step (nproc fx : Z) (st : Decomp.search) :
  1 <= fx <= nproc ->
  Decomp.try_factor nx nz min_block nproc st fx
  = Ok (Decomp.step nx nz min_block nproc st fx).
Proof.
  intros Hfx. unfold Decomp.try_factor, Decomp.step, Py.mod_, Py.floordiv.
  replace (fx =? 0) with false by (symmetry; apply Z.eqb_neq; lia).
  simpl.
  destruct (nproc mod fx =? 0) eqn:Hr; simpl; [|reflexivity].
  apply Z.eqb_eq in Hr.
  pose proof (cofactor_pos nproc fx Hfx Hr) as Hfy.
  replace (nproc / fx =? 0) with false by (symmetry; apply Z.eqb_neq; lia).
  destruct (nx mod fx =? 0); simpl; [|reflexivity].
  destruct (nz mod (nproc / fx) =? 0); simpl; [|reflexivity].
  destruct ((nx / fx <? min_block) || (nz / (nproc / fx) <? min_block));
    [reflexivity|].
  destruct (fx * (nproc / fx) >? Decomp.best_procs st); reflexivity.
Qed.

Lemma try_nproc_scan (st : Decomp.search) (nproc : Z) :
  Decomp.try_nproc nx nz min_block st nproc
  = Ok (Decomp.scan_nproc nx nz min_block st nproc).
Proof.
  unfold Decomp.try_nproc, Decomp.scan_nproc.
  apply for_each_pure. intros s fx Hin.
  apply range_In in Hin. apply try_factor_step. lia.
Qed.

Lemma search_scan (max_cores : Z) :
  Py.for_each (Py.range 1 (max_cores + 1))
    (Decomp.try_nproc nx nz min_block) Decomp.search0
  = Ok (Decomp.scan nx nz min_block max_cores).
Proof.
  unfold Decomp.scan. apply for_each_pure.
  intros s nproc _. apply try_nproc_scan.
Qed.

(** [step] keeps the invariant, for the [fx] of the inner loop. *)
Lemma step_inv (max_cores nproc fx : Z) (st : Decomp.search) :
  1 <= fx <= nproc -> nproc <= max_cores ->
  Decomp.search_inv nx nz min_block max_cores st ->
  Decomp.search_inv nx nz min_block max_cores
    (Decomp.step nx nz min_block nproc st fx).
Proof.
  intros Hfx Hn Hst. unfold Decomp.step.
  destruct (nproc mod fx =? 0) eqn:Hr; simpl; [|exact Hst].
  apply Z.eqb_eq in Hr.
  destruct (nx mod fx =? 0) eqn:Hx; simpl; [|exact Hst].
  destruct (nz mod (nproc / fx) =? 0) eqn:Hz; simpl; [|exact Hst].
  destruct (nx / fx <? min_block) eqn:Hlx; simpl; [exact Hst|].
  destruct (nz / (nproc / fx) <? min_block) eqn:Hlz; simpl; [exact Hst|].
  destruct (fx * (nproc / fx) >? Decomp.best_procs st); [|exact Hst].
  pose proof (cofactor_pos nproc fx Hfx Hr) as Hfy.
  apply Z.eqb_eq in Hx, Hz. apply Z.ltb_ge in Hlx, Hlz.
  assert (Hprod : fx * (nproc / fx) = nproc).
  { symmetry. apply Z_div_exact_full_2; lia. }
  unfold Decomp.search_inv, Decomp.feasible; simpl.
  repeat split; try lia; right; repeat split; lia.
Qed.

Lemma scan_inv (max_cores : Z) :
  Decomp.search_inv nx nz min_block max_cores
    (Decomp.scan nx nz min_block max_cores).
Proof.
  unfold Decomp.scan. apply fold_left_invariant.
  - intros st nproc Hn Hst. apply range_In in Hn.
    unfold Decomp.scan_nproc. apply fold_left_invariant; [|exact Hst].
    intros st' fx Hfx Hst'. apply range_In in Hfx.
    apply step_inv; [lia | lia | exact Hst'].
  - unfold Decomp.search_inv; simpl. repeat split; try lia. left; reflexivity.
Qed.

Lemma step_mono (nproc fx : Z) (st : Decomp.search) :
  Decomp.best_procs st
  <= Decomp.best_procs (Decomp.step nx nz min_block nproc st fx).
Proof.
  unfold Decomp.step.
  repeat match goal with
         | |- context [if ?c then _ else _] => destruct c eqn:?; simpl
         end; lia.
Qed.

Lemma scan_nproc_mono (nproc : Z) (st : Decomp.search) :
  Decomp.best_procs st
  <= Decomp.best_procs (Decomp.scan_nproc nx nz min_block st nproc).
Proof.
  unfold Decomp.scan_nproc.
  generalize (Py.range 1 (nproc + 1)). intros l. revert st.
  induction l as [|fx l IH]; intros st; simpl; [lia|].
  specialize (IH (Decomp.step nx nz min_block nproc st fx)).
  pose proof (step_mono nproc fx st). lia.
Qed.

(** Visiting a feasible pair of positive factors lifts [best_procs] to
    their product at least. *)
Lemma step_feasible (fx fy : Z) (st : Decomp.search) :
  1 <= fx -> 1 <= fy -> Decomp.feasible nx nz min_block fx fy ->
  fx * fy
  <= Decomp.best_procs (Decomp.step nx nz min_block (fx * fy) st fx).
Proof.
  intros Hfx Hfy [Hx [Hz [Hlx Hlz]]]. unfold Decomp.step.
  assert (Hq : fx * fy / fx = fy).
  { rewrite Z.mul_comm. apply Z.div_mul. lia. }
  assert (Hm : (fx * fy) mod fx = 0).
  { rewrite Z.mul_comm. apply Z.mod_mul. lia. }
  rewrite Hm, Hq, Hx, Hz. simpl.
  apply Z.ltb_ge in Hlx, Hlz. rewrite Hlx, Hlz. simpl.
  destruct (fx * fy >? Decomp.best_procs st) eqn:Hgt; simpl; [lia|].
  rewrite Z.gtb_ltb in Hgt. apply Z.ltb_ge in Hgt. exact Hgt.
Qed.

Lemma scan_reaches (max_cores fx fy : Z) :
  1 <= fx -> 1 <= fy -> fx * fy <= max_cores ->
  Decomp.feasible nx nz min_block fx fy ->
  fx * fy <= Decomp.best_procs (Decomp.scan nx nz min_block max_cores).
Proof.
  intros Hfx Hfy Hle Hfeas. unfold Decomp.scan.
  apply fold_left_reaches with (x0 := fx * fy).
  - intros s x. apply scan_nproc_mono.
  - intros s. unfold Decomp.scan_nproc.
    apply fold_left_reaches with (x0 := fx).
    + intros s' x. apply step_mono.
    + intros s'. apply step_feasible; assumption.
    + apply range_In. nia.
  - apply range_In. nia.
Qed.

(** The function as a whole: it raises nothing, and returns the state the
    scan ends in together with the thread count. *)
Lemma suggest_returns (max_cores fw fdorder : Z) :
  min_block = 2 * fw + 2 * fdorder ->
  Decomp.suggest_domain_decomposition_sofi nx nz max_cores fw fdorder
  = Ok (fst (Decomp.best (Decomp.scan nx nz min_block max_cores)),
        snd (Decomp.best (Decomp.scan nx nz min_block max_cores)),
        Z.max 1
          (max_cores
           / Decomp.best_procs (Decomp.scan nx nz min_block max_cores)),
        Decomp.best_procs (Decomp.scan nx nz min_block max_cores)).
Proof.
  intros Hmb. unfold Decomp.suggest_domain_decomposition_sofi.
  rewrite <- Hmb, search_scan. simpl.
  destruct (scan_inv max_cores) as [Hp [Hx [Hz _]]].
  unfold Py.floordiv.
  replace (Decomp.best_procs (Decomp.scan nx nz min_block max_cores) =? 0)
    with false by (symmetry; apply Z.eqb_neq; nia).
  reflexivity.
Qed.

End Decomposition.


(** C2: for positive [nx], [nz], [max_cores] the call returns a layout, and
    when its [total_processes] exceeds 1 both factors divide the grid evenly
    ([nx % procs_x == 0], [nz % procs_z == 0]) and both local sizes reach
    [min_block = 2*boundary_width + 2*stencil_order]. *)
Theorem decomposition_layout_feasible (nx nz max_cores fw fdorder : Z) :
  0 < nx -> 0 < nz -> 0 < max_cores ->
  exists procs_x procs_z threads total,
    Decomp.suggest_domain_decomposition_sofi nx nz max_cores fw fdorder
    = Ok (procs_x, procs_z, threads, total) /\
    (total > 1 ->
     nx mod procs_x = 0 /\ nz mod procs_z = 0 /\
     nx / procs_x >= 2 * fw + 2 * fdorder /\
     nz / procs_z >= 2 * fw + 2 * fdorder).
Proof.
  intros _ _ _.
  set (mb := 2 * fw + 2 * fdorder).
  rewrite (suggest_returns nx nz mb max_cores fw fdorder eq_refl).
  do 4 eexists. split; [reflexivity|].
  intros Htotal.
  destruct (scan_inv nx nz mb max_cores) as [Hp [Hx [Hz [H11 | [Hfeas _]]]]].
  - rewrite H11 in Hp. simpl in Hp. lia.
  - destruct Hfeas as [H1 [H2 [H3 H4]]]. repeat split; lia.
Qed.

Lemma decomposition_layout_feasible_witness :
  exists procs_x procs_z threads total,
    Decomp.suggest_domain_decomposition_sofi 512 256 16 40 4
    = Ok (procs_x, procs_z, threads, total) /\
    (total > 1 ->
     512 mod procs_x = 0 /\ 256 mod procs_z = 0 /\
     512 / procs_x >= 2 * 40 + 2 * 4 /\
     256 / procs_z >= 2 * 40 + 2 * 4).
Proof.
  apply (decomposition_layout_feasible 512 256 16 40 4); lia.
Defined.



(** C4, as stated, fails: with [max_cores = 0], with [nx = 0] and with
    [nz = -256] the call raises nothing and returns the single-process
    layout. *)
Lemma decomposition_invalid_input_accepted :
  Decomp.suggest_domain_decomposition_sofi 512 256 0 40 4 = Ok (1, 1, 1, 1) /\
  Decomp.suggest_domain_decomposition_sofi 0 256 16 40 4 = Ok (1, 1, 16, 1) /\
  Decomp.suggest_domain_decomposition_sofi 512 (-256) 16 40 4
  = Ok (1, 1, 16, 1).
Proof. repeat split; vm_compute; reflexivity. Qed.

(** C4, amended: the function validates nothing.  With [max_cores < 1], or
    [nx <= 0], or [nz <= 0] it raises no error and returns a layout of
    positive factors with [total_processes = procs_x * procs_z] and at least
    one thread per process; with [max_cores < 1] the loops are empty and the
    layout is [(1, 1, 1, 1)]. *)
Theorem decomposition_never_raises (nx nz max_cores fw fdorder : Z) :
  max_cores < 1 \/ nx <= 0 \/ nz <= 0 ->
  exists procs_x procs_z threads total,
    Decomp.suggest_domain_decomposition_sofi nx nz max_cores fw fdorder
    = Ok (procs_x, procs_z, threads, total) /\
    1 <= procs_x /\ 1 <= procs_z /\ total = procs_x * procs_z /\
    1 <= threads /\
    (max_cores < 1 -> (procs_x, procs_z, threads, total) = (1, 1, 1, 1)).
Proof.
  intros _.
  set (mb := 2 * fw + 2 * fdorder).
  rewrite (suggest_returns nx nz mb max_cores fw fdorder eq_refl).
  do 4 eexists. split; [reflexivity|].
  destruct (scan_inv nx nz mb max_cores) as [Hp [Hx [Hz _]]].
  repeat split; try lia.
  intros Hmc. unfold Decomp.scan, Py.range.
  replace (Z.to_nat (max_cores + 1 - 1)) with 0%nat by lia.
  simpl. f_equal. f_equal.
  assert (max_cores / 1 <= 0) by (rewrite Z.div_1_r; lia). lia.
Qed.

Lemma decomposition_never_raises_witness :
  exists procs_x procs_z threads total,
    Decomp.suggest_domain_decomposition_sofi 512 256 0 40 4
    = Ok (procs_x, procs_z, threads, total) /\
    1 <= procs_x /\ 1 <= procs_z /\ total = procs_x * procs_z /\
    1 <= threads /\
    (0 < 1 -> (procs_x, procs_z, threads, total) = (1, 1, 1, 1)).
Proof.
  apply (decomposition_never_raises 512 256 0 40 4). left. lia.
Defined.

(** C5: for [nx=512, nz=256, max_cores=16, boundary_width=40,
    stencil_order=4] ([min_block = 88]) the call returns exactly
    [(procs_x=4, procs_z=2, threads_per_process=2, total_processes=8)]. *)
Theorem decomposition_scenario_512_256 :
  2 * 40 + 2 * 4 = 88 /\
  Decomp.suggest_domain_decomposition_sofi 512 256 16 40 4 = Ok (4, 2, 2, 8).
Proof. split; [reflexivity | vm_compute; reflexivity]. Qed.

(** ** Padding *)







Section Pad.

Variables (a : Np.ndarray) (l r t b : Z) (mode : Np.pad_mode).
Hypothesis Hwf : Np.wf a.
Hypothesis Hl : 0 <= l.
Hypothesis Hr : 0 <= r.
Hypothesis Ht : 0 <= t.
Hypothesis Hb : 0 <= b.
(** A pad of an empty axis has nothing to replicate. *)
Hypothesis Hrows : Np.nrows a = 0%nat -> l = 0 /\ r = 0.
Hypothesis Hcols : Np.ncols a = 0%nat -> t = 0 /\ b = 0.



End Pad.







(** ** The two definitions of the padder *)

(** The later [def] owns the name. *)
Lemma padder_is_second_definition (c : ModelUtils.call) :
  ModelUtils.pad_model_to_multiple c = ModelUtils.call_def219 c.
Proof. reflexivity. Qed.

Lemma map_result_Forall2 {A B : Type} (f : A -> result B)
    (R : A -> B -> Prop) (l : list A) :
  Forall (fun x => exists y, f x = Ok y /\ R x y) l ->
  exists ys, ModelUtils.map_result f l = Ok ys /\ Forall2 R l ys.
Proof.
  induction 1 as [|x l [y [Hy HR]] _ [ys [Hys HF]]]; simpl.
  - exists []. split; [reflexivity | constructor].
  - rewrite Hy. simpl. rewrite Hys. simpl.
    exists (y :: ys). split; [reflexivity | constructor; assumption].
Qed.



(** C1 fails on the name a caller reaches: [pad_model_to_multiple] is the
    second definition.  Passed the one model of shape [(17, 33)] with
    [multiple=16] it returns a pair, the padded array with the offsets
    [(7, 8, 7, 8)], and not the array alone; passed two such models it raises
    [TypeError] and returns no tuple of arrays. *)
Theorem padder_single_model_returns_pair :
  (exists padded,
     ModelUtils.pad_model_to_multiple
       (ModelUtils.mkCall [ModelUtils.model_17_33] 16 None)
     = Ok (ModelUtils.VTuple
             [ModelUtils.VArray padded;
              ModelUtils.VTuple
                [ModelUtils.VInt 7; ModelUtils.VInt 8;
                 ModelUtils.VInt 7; ModelUtils.VInt 8]]) /\
     Np.shape padded = (32, 48)) /\
  ModelUtils.pad_model_to_multiple
    (ModelUtils.mkCall [ModelUtils.model_17_33; ModelUtils.model_17_33]
       16 None)
  = Raise TypeError.
Proof.
  split; [|reflexivity].
  eexists. split; vm_compute; reflexivity.
Qed.

(** ** Comparisons of binary64 values *)

Lemma SFcompare_refl (x : spec_float) :
  x <> S754_nan -> SFcompare x x = Some Eq.
Proof.
  destruct x as [s | s | | s m e]; intros Hx; simpl.
  - reflexivity.
  - destruct s; reflexivity.
  - congruence.
  - rewrite Z.compare_refl, Pcompare_refl. destruct s; reflexivity.
Qed.


(** A value below another is a number, and so is the other. *)
Lemma ltb_numbers (a b : float) :
  (a <? b)%float = true ->
  PrimFloat.is_nan a = false /\ PrimFloat.is_nan b = false.
Proof.
  rewrite FloatAxioms.ltb_spec. unfold SFltb, PrimFloat.is_nan.
  rewrite !FloatAxioms.eqb_spec. unfold SFeqb.
  intros H.
  assert (Ha : Prim2SF a <> S754_nan).
  { intros E. rewrite E in H. discriminate H. }
  assert (Hb : Prim2SF b <> S754_nan).
  { intros E. rewrite E in H. destruct (Prim2SF a); discriminate H. }
  rewrite (SFcompare_refl _ Ha), (SFcompare_refl _ Hb). split; reflexivity.
Qed.


(** A positive spacing equals itself. *)
Lemma positive_eqb_refl (h : float) :
  (0 <? h)%float = true -> (h =? h)%float = true.
Proof.
  intros H. destruct (ltb_numbers _ _ H) as [_ Hh].
  unfold PrimFloat.is_nan in Hh. apply negb_false_iff in Hh. exact Hh.
Qed.

(** ** Resampling *)

Lemma resample_same_spacing (model : Np.ndarray) (h : float) :
  (h =? h)%float = true ->
  ModelUtils.resample_model model h h h = Ok model.
Proof.
  intros Hh. unfold ModelUtils.resample_model. rewrite Hh. reflexivity.
Qed.

(** C7: for every 2-D model and every spacing [h] (a number: NaN is no
    spacing, and is unequal to itself), [resample_model(model, h, h, h)]
    returns the input model itself, unchanged. *)
Theorem resample_identity (model : Np.ndarray) (h : float) :
  PrimFloat.is_nan h = false ->
  ModelUtils.resample_model model h h h = Ok model.
Proof.
  intros Hh. apply resample_same_spacing.
  unfold PrimFloat.is_nan in Hh. apply negb_false_iff in Hh. exact Hh.
Qed.

Lemma resample_identity_witness :
  ModelUtils.resample_model ModelUtils.model_2_2 10 10 10
  = Ok ModelUtils.model_2_2.
Proof.
  apply (resample_identity ModelUtils.model_2_2 10). reflexivity.
Defined.

(** The same for a positive spacing, as the data model has it. *)
Lemma resample_identity_positive (model : Np.ndarray) (h : float) :
  (0 <? h)%float = true ->
  ModelUtils.resample_model model h h h = Ok model.
Proof.
  intros Hh. apply resample_same_spacing, positive_eqb_refl, Hh.
Qed.

Lemma arange_times_length (n : Z) (d : float) :
  length (Np.arange_times n d) = Z.to_nat n.
Proof. unfold Np.arange_times. rewrite length_map, length_seq. reflexivity. Qed.


Lemma last_item_snoc (l : list float) (y : float) :
  Np.last_item (l ++ [y]) = Ok y.
Proof.
  destruct l as [|x l']; simpl; [reflexivity|].
  f_equal. apply last_last.
Qed.

(** [x_old[-1]] is [(n - 1) * d]. *)
Lemma last_item_arange (n : Z) (d : float) :
  1 <= n ->
  Np.last_item (Np.arange_times n d) = Ok (Np.of_int (n - 1) * d)%float.
Proof.
  intros Hn. unfold Np.arange_times.
  destruct (Z.to_nat n) as [|k] eqn:Ek; [lia|].
  rewrite seq_S, map_app. simpl. rewrite last_item_snoc.
  replace (Z.of_nat k) with (n - 1) by lia. reflexivity.
Qed.

(** Cutting a concatenation of rows of one width gives the rows back. *)
Lemma chunks_flat_map {A : Type} (h : A -> list float) (w : nat)
    (xs : list A) :
  (forall x, In x xs -> length (h x) = w) ->
  Np.chunks (length xs) w (flat_map h xs) = map h xs.
Proof.
  induction xs as [|x xs IH]; intros Hw; simpl; [reflexivity|].
  assert (Hx : length (h x) = w) by (apply Hw; left; reflexivity).
  rewrite firstn_app, skipn_app, Hx, Nat.sub_diag. simpl.
  assert (IH' := IH (fun x' Hx' => Hw x' (or_intror Hx'))).
  clear IH Hw. subst w.
  rewrite firstn_all, app_nil_r, skipn_all. simpl.
  f_equal. exact IH'.
Qed.

Lemma map_mesh_points {B : Type} (g : float * float -> B)
    (xs zs : list float) :
  map g (ModelUtils.mesh_points xs zs)
  = flat_map (fun x => map (fun z => g (x, z)) zs) xs.
Proof.
  unfold ModelUtils.mesh_points.
  induction xs as [|x xs IH]; simpl; [reflexivity|].
  rewrite map_app, map_map, IH. reflexivity.
Qed.

Lemma flat_map_rows_length {A : Type} (h : A -> list float) (w : nat)
    (xs : list A) :
  (forall x, In x xs -> length (h x) = w) ->
  length (flat_map h xs) = (length xs * w)%nat.
Proof.
  induction xs as [|x xs IH]; intros Hw; simpl; [reflexivity|].
  rewrite length_app, IH by (intros x' Hx'; apply Hw; right; exact Hx').
  rewrite (Hw x) by (left; reflexivity). reflexivity.
Qed.

(** [reshape] to the shape the data was laid out for. *)
Lemma reshape_exact (flat : list float) (na nb : nat) :
  length flat = (na * nb)%nat ->
  Np.reshape flat (Z.of_nat na) (Z.of_nat nb)
  = Ok (Np.mkArray Np.float64 na nb (Np.chunks na nb flat)).
Proof.
  intros Hlen. unfold Np.reshape.
  replace (Z.of_nat na <? -1) with false by (symmetry; apply Z.ltb_ge; lia).
  replace (Z.of_nat nb <? -1) with false by (symmetry; apply Z.ltb_ge; lia).
  replace (Z.of_nat na =? -1) with false by (symmetry; apply Z.eqb_neq; lia).
  replace (Z.of_nat nb =? -1) with false by (symmetry; apply Z.eqb_neq; lia).
  simpl.
  replace (Z.of_nat na * Z.of_nat nb =? Z.of_nat (length flat)) with true
    by (symmetry; apply Z.eqb_eq; lia).
  rewrite !Nat2Z.id. reflexivity.
Qed.

Lemma interpolator_ascending (x z : list float) (vals : list (list float)) :
  Scipy.ascending x = true -> Scipy.ascending z = true ->
  Scipy.RegularGridInterpolator x z vals = Ok (Scipy.mkInterp x z vals).
Proof.
  intros Hx Hz. unfold Scipy.RegularGridInterpolator.
  rewrite Hx. simpl. rewrite Hz. reflexivity.
Qed.





Section Resample.

Variables (model : Np.ndarray) (dx dz dh : float) (kx kz : Z).
Hypothesis Hspacing : (dx =? dh)%float && (dz =? dh)%float = false.
Hypothesis Hready : ModelUtils.resamplable model dx dz dh kx kz.

(** On such inputs the call returns the interpolant's values on the new
    grid, one row per new [x]. *)
Lemma resample_spec :
  Scipy.RegularGridInterpolator (Np.arange_times (fst (Np.shape model)) dx)
    (Np.arange_times (snd (Np.shape model)) dz) (Np.rows model)
  = Ok (ModelUtils.old_grid model dx dz) /\
  ModelUtils.resample_model model dx dz dh
  = Ok (Np.mkArray Np.float64 (Z.to_nat (kx + 1)) (Z.to_nat (kz + 1))
          (map (fun x =>
                  map (fun z => Scipy.eval (ModelUtils.old_grid model dx dz)
                                  x z)
                    (Np.arange_times (kz + 1) dh))
             (Np.arange_times (kx + 1) dh))).
Proof.
  destruct Hready as [Hr Hc Hax Haz Hkx Hkz Hx0 Hz0].
  unfold ModelUtils.old_grid.
  unfold Np.shape in *. simpl fst in *. simpl snd in *.
  pose proof (interpolator_ascending _ _ (Np.rows model) Hax Haz) as Hf.
  split; [exact Hf|].
  unfold ModelUtils.resample_model. rewrite Hspacing.
  unfold Np.shape.
  rewrite (last_item_arange (Z.of_nat (Np.nrows model)) dx) by lia.
  cbn [Py.bind]. rewrite Hkx. cbn [Py.bind].
  rewrite (last_item_arange (Z.of_nat (Np.ncols model)) dz) by lia.
  cbn [Py.bind]. rewrite Hkz. cbn [Py.bind].
  rewrite Hf. cbn [Py.bind].
  rewrite map_mesh_points. cbn [fst snd].
  set (f := Scipy.mkInterp _ _ _).
  set (xs := Np.arange_times (kx + 1) dh).
  set (zs := Np.arange_times (kz + 1) dh).
  assert (Hw : forall x, In x xs ->
                 length (map (fun z => Scipy.eval f x z) zs)
                 = Z.to_nat (kz + 1)).
  { intros x _. rewrite length_map. apply arange_times_length. }
  assert (Hxs : length xs = Z.to_nat (kx + 1)) by apply arange_times_length.
  rewrite <- (Z2Nat.id (kx + 1)) at 1 by lia.
  rewrite <- (Z2Nat.id (kz + 1)) at 1 by lia.
  rewrite reshape_exact
    by (rewrite (flat_map_rows_length _ _ _ Hw), Hxs; reflexivity).
  rewrite <- Hxs at 2. rewrite (chunks_flat_map _ _ _ Hw). reflexivity.
Qed.


End Resample.

Lemma resample_wf (model : Np.ndarray) (dx dz dh : float) (kx kz : Z)
    (r : Np.ndarray) :
  (dx =? dh)%float && (dz =? dh)%float = false ->
  ModelUtils.resamplable model dx dz dh kx kz ->
  ModelUtils.resample_model model dx dz dh = Ok r ->
  Np.wf r /\ Np.shape r = (kx + 1, kz + 1) /\ Np.adtype r = Np.float64.
Proof.
  intros Hs Hready Hr.
  destruct (resample_spec model dx dz dh kx kz Hs Hready) as [_ E].
  pose proof (ModelUtils.rs_kx_nonneg _ _ _ _ _ _ Hready) as Hkx.
  pose proof (ModelUtils.rs_kz_nonneg _ _ _ _ _ _ Hready) as Hkz.
  rewrite E in Hr. injection Hr as <-.
  split; [split|split]; simpl.
  - rewrite length_map. apply arange_times_length.
  - apply Forall_map, Forall_forall. intros x _. simpl.
    rewrite length_map. apply arange_times_length.
  - unfold Np.shape; simpl. f_equal; lia.
  - reflexivity.
Qed.

(** C8, as stated, fails on the dtype: the [float32] model of shape
    [(2, 2)] on a 1 m grid, resampled to 0.625 m, comes back with the
    claimed shape [(3, 3)] but as [float64].  Nor does every model with
    positive spacings get an array back: an empty model raises [IndexError]
    at [x_old[-1]], and an extent that overflows on division raises
    [OverflowError] at [int(round(...))]. *)
Lemma resample_result_is_float64 :
  Np.adtype ModelUtils.model_2_2 = Np.float32 /\
  (exists r,
     ModelUtils.resample_model ModelUtils.model_2_2 1 1 0.625 = Ok r /\
     Np.shape r = (3, 3) /\
     Np.adtype r <> Np.float32) /\
  ModelUtils.resample_model (Np.mkArray Np.float32 0 2 []) 1 1 0.5
  = Raise IndexError /\
  ModelUtils.resample_model ModelUtils.model_2_2 0x1p1023 1 0x1p-1022
  = Raise OverflowError.
Proof.
  split; [reflexivity|]. split.
  - eexists. split; [vm_compute; reflexivity|].
    split; [reflexivity | discriminate].
  - split; vm_compute; reflexivity.
Qed.

(** C8, amended: for a non-empty 2-D model and spacings with
    [(dx, dz) != (dh, dh)] whose axes [i*dx], [j*dz] increase strictly and
    whose extents round to [kx = round((nx_old-1)*dx / dh) >= 0] and
    [kz = round((nz_old-1)*dz / dh) >= 0] (as positive spacings give, short
    of overflow), the call returns a well-formed array of shape exactly
    [(kx + 1, kz + 1)]; its dtype is [float64], the interpolator's, whatever
    the dtype of the model ([save_bin] converts to [float32] on writing). *)
Theorem resample_shape_and_dtype (model : Np.ndarray) (dx dz dh : float)
    (kx kz : Z) :
  (dx =? dh)%float && (dz =? dh)%float = false ->
  ModelUtils.resamplable model dx dz dh kx kz ->
  exists r,
    ModelUtils.resample_model model dx dz dh = Ok r /\
    Np.wf r /\
    Np.shape r = (kx + 1, kz + 1) /\
    Np.adtype r = Np.float64.
Proof.
  intros Hs Hready.
  destruct (resample_spec model dx dz dh kx kz Hs Hready) as [_ E].
  eexists. split; [exact E|].
  exact (resample_wf model dx dz dh kx kz _ Hs Hready E).
Qed.

Lemma resample_shape_and_dtype_witness :
  exists r,
    ModelUtils.resample_model ModelUtils.model_2_2 1 1 0.625 = Ok r /\
    Np.wf r /\
    Np.shape r = (2 + 1, 2 + 1) /\
    Np.adtype r = Np.float64.
Proof.
  apply (resample_shape_and_dtype ModelUtils.model_2_2 1 1 0.625 2 2).
  - reflexivity.
  - constructor; try reflexivity; simpl; lia.
Defined.




(* ================================================================== *)
(** * Further properties of the code *)
(* ================================================================== *)

(** ** Domain decomposition: budget, fallback, ties *)

(** With a budget of at least one core the layout stays inside it: the
    process count is the product of the two factors and at most
    [max_cores], and processes times threads never exceeds [max_cores]. *)
Theorem decomposition_within_budget (nx nz max_cores fw fdorder : Z) :
  1 <= max_cores ->
  exists procs_x procs_z threads total,
    Decomp.suggest_domain_decomposition_sofi nx nz max_cores fw fdorder
    = Ok (procs_x, procs_z, threads, total) /\
    total = procs_x * procs_z /\
    1 <= total <= max_cores /\
    1 <= threads /\
    threads * total <= max_cores.
Proof.
  intros Hmc.
  rewrite (suggest_returns nx nz (2 * fw + 2 * fdorder) max_cores fw fdorder
             eq_refl).
  do 4 eexists. split; [reflexivity|].
  destruct (scan_inv nx nz (2 * fw + 2 * fdorder) max_cores)
    as [Hp [Hx [Hz Hb]]].
  set (st := Decomp.scan nx nz (2 * fw + 2 * fdorder) max_cores) in *.
  assert (Htot : 1 <= Decomp.best_procs st <= max_cores).
  { destruct Hb as [E | [_ Hle]].
    - rewrite E in Hp. simpl in Hp. lia.
    - split; [nia | exact Hle]. }
  assert (Hq : 1 <= max_cores / Decomp.best_procs st).
  { apply Z.div_le_lower_bound; lia. }
  conjuncts; try lia.
  rewrite Z.max_r by lia.
  rewrite Z.mul_comm. apply Z.mul_div_le. lia.
Qed.

Lemma decomposition_within_budget_witness :
  exists procs_x procs_z threads total,
    Decomp.suggest_domain_decomposition_sofi 512 256 16 40 4
    = Ok (procs_x, procs_z, threads, total) /\
    total = procs_x * procs_z /\
    1 <= total <= 16 /\
    1 <= threads /\
    threads * total <= 16.
Proof.
  apply (decomposition_within_budget 512 256 16 40 4). lia.
Defined.

(** A larger budget never yields fewer processes. *)
Theorem decomposition_monotone_in_budget
    (nx nz max_cores max_cores' fw fdorder : Z) :
  max_cores <= max_cores' ->
  exists px pz t total px' pz' t' total',
    Decomp.suggest_domain_decomposition_sofi nx nz max_cores fw fdorder
    = Ok (px, pz, t, total) /\
    Decomp.suggest_domain_decomposition_sofi nx nz max_cores' fw fdorder
    = Ok (px', pz', t', total') /\
    total <= total'.
Proof.
  intros Hle.
  set (mb := 2 * fw + 2 * fdorder).
  rewrite (suggest_returns nx nz mb max_cores fw fdorder eq_refl).
  rewrite (suggest_returns nx nz mb max_cores' fw fdorder eq_refl).
  do 8 eexists. split; [reflexivity|]. split; [reflexivity|].
  destruct (scan_inv nx nz mb max_cores) as [Hp [Hx [Hz Hb]]].
  destruct (scan_inv nx nz mb max_cores') as [Hp' [Hx' [Hz' _]]].
  destruct Hb as [E | [Hfeas Hbud]].
  - rewrite E in Hp. simpl in Hp. rewrite Hp. nia.
  - rewrite Hp at 1.
    apply scan_reaches; try assumption. lia.
Qed.

Lemma decomposition_monotone_in_budget_witness :
  exists px pz t total px' pz' t' total',
    Decomp.suggest_domain_decomposition_sofi 512 256 8 40 4
    = Ok (px, pz, t, total) /\
    Decomp.suggest_domain_decomposition_sofi 512 256 16 40 4
    = Ok (px', pz', t', total') /\
    total <= total'.
Proof.
  apply (decomposition_monotone_in_budget 512 256 8 16 40 4). lia.
Defined.

(** A candidate is rejected whenever the grid itself is narrower than
    [min_block] along one axis. *)
Lemma step_small_grid (nx nz min_block nproc fx : Z) (st : Decomp.search) :
  0 <= nx < min_block \/ 0 <= nz < min_block ->
  1 <= fx <= nproc ->
  Decomp.step nx nz min_block nproc st fx = st.
Proof.
  intros Hsmall Hfx. unfold Decomp.step.
  destruct (nproc mod fx =? 0) eqn:Hr; simpl; [|reflexivity].
  apply Z.eqb_eq in Hr.
  pose proof (cofactor_pos nproc fx Hfx Hr) as Hfy.
  destruct (negb (nx mod fx =? 0) || negb (nz mod (nproc / fx) =? 0));
    [reflexivity|].
  assert (Hx : (nx / fx <? min_block) = true \/
               (nz / (nproc / fx) <? min_block) = true).
  { destruct Hsmall as [[H0 H1] | [H0 H1]]; [left | right];
      apply Z.ltb_lt.
    - assert (nx / fx <= nx) by (apply Z.div_le_upper_bound; nia). lia.
    - assert (nz / (nproc / fx) <= nz)
        by (apply Z.div_le_upper_bound; nia). lia. }
  destruct Hx as [-> | ->]; [reflexivity|].
  rewrite orb_true_r. reflexivity.
Qed.

(** The fallback is not checked against [min_block]: when the whole grid is
    narrower than [min_block] along an axis, no candidate is accepted and the
    call still returns the single-process layout [(1, 1)], with the whole
    budget as threads. *)
Theorem decomposition_small_grid_fallback (nx nz max_cores fw fdorder : Z) :
  0 <= nx < 2 * fw + 2 * fdorder \/ 0 <= nz < 2 * fw + 2 * fdorder ->
  Decomp.suggest_domain_decomposition_sofi nx nz max_cores fw fdorder
  = Ok (1, 1, Z.max 1 max_cores, 1).
Proof.
  intros Hsmall.
  set (mb := 2 * fw + 2 * fdorder) in *.
  rewrite (suggest_returns nx nz mb max_cores fw fdorder eq_refl).
  assert (Hscan : Decomp.scan nx nz mb max_cores = Decomp.search0).
  { unfold Decomp.scan.
    apply (fold_left_invariant _ (fun s => s = Decomp.search0));
      [|reflexivity].
    intros s nproc _ ->. unfold Decomp.scan_nproc.
    apply (fold_left_invariant _ (fun s => s = Decomp.search0));
      [|reflexivity].
    intros s fx Hfx ->. apply range_In in Hfx.
    apply step_small_grid; [exact Hsmall | lia]. }
  rewrite Hscan. simpl. rewrite Z.div_1_r. reflexivity.
Qed.

Lemma decomposition_small_grid_fallback_witness :
  Decomp.suggest_domain_decomposition_sofi 64 256 16 40 4
  = Ok (1, 1, Z.max 1 16, 1).
Proof.
  apply (decomposition_small_grid_fallback 64 256 16 40 4). lia.
Defined.

(** *** Ties go to the smallest [fx] *)

Lemma range_snoc (lo : Z) (j : nat) :
  Py.range lo (lo + Z.of_nat (S j))
  = Py.range lo (lo + Z.of_nat j) ++ [lo + Z.of_nat j].
Proof.
  unfold Py.range.
  replace (Z.to_nat (lo + Z.of_nat (S j) - lo)) with (S j) by lia.
  replace (Z.to_nat (lo + Z.of_nat j - lo)) with j by lia.
  rewrite seq_S, map_app. reflexivity.
Qed.

Section Ties.

Variables nx nz min_block : Z.

(** Trying one more [fx] keeps [best] the first to reach [best_procs]. *)
Lemma step_first_best (nproc k : Z) (st : Decomp.search) :
  1 <= k <= nproc ->
  SearchOrder.first_best nx nz min_block nproc k st ->
  SearchOrder.first_best nx nz min_block nproc (k + 1)
    (Decomp.step nx nz min_block nproc st k).
Proof.
  intros Hk [Hp [Hbx [Hbz [Hwho Hall]]]].
  assert (Hkeep : (forall b, 1 <= b -> k * b = nproc ->
                     Decomp.feasible nx nz min_block k b ->
                     k * b <= Decomp.best_procs st /\
                     (k * b = Decomp.best_procs st ->
                      fst (Decomp.best st) <= k)) ->
                  SearchOrder.first_best nx nz min_block nproc (k + 1) st).
  { intros Hnew. unfold SearchOrder.first_best. conjuncts; try assumption.
    - destruct Hwho as [E | [Hr Hc]]; [left; exact E | right].
      unfold SearchOrder.tried in *. lia.
    - intros a b Ha Hb [Hr Hc] Hfeas.
      assert (Hcase : SearchOrder.tried nproc k (a * b) a \/
                      (a * b = nproc /\ a = k)).
      { unfold SearchOrder.tried. lia. }
      destruct Hcase as [Hold | [Hn ->]].
      + apply Hall; assumption.
      + apply Hnew; assumption. }
  unfold Decomp.step.
  destruct (nproc mod k =? 0) eqn:Hr; simpl.
  2:{ apply Hkeep. intros b Hb Hkb _. apply Z.eqb_neq in Hr. exfalso.
      apply Hr. rewrite <- Hkb, Z.mul_comm. apply Z.mod_mul. lia. }
  apply Z.eqb_eq in Hr.
  pose proof (cofactor_pos nproc k Hk Hr) as Hfy.
  assert (Hprod : k * (nproc / k) = nproc).
  { symmetry. apply Z_div_exact_full_2; lia. }
  assert (Hb_eq : forall b, k * b = nproc -> b = nproc / k).
  { intros b Hkb. rewrite <- Hkb, Z.mul_comm. symmetry.
    apply Z.div_mul. lia. }
  destruct (nx mod k =? 0) eqn:Hx; simpl.
  2:{ apply Hkeep. intros b Hb Hkb [Hf _]. apply Z.eqb_neq in Hx.
      contradiction. }
  destruct (nz mod (nproc / k) =? 0) eqn:Hz; simpl.
  2:{ apply Hkeep. intros b Hb Hkb [_ [Hf _]]. apply Z.eqb_neq in Hz.
      rewrite (Hb_eq b Hkb) in Hf. contradiction. }
  destruct (nx / k <? min_block) eqn:Hlx; simpl.
  { apply Hkeep. intros b Hb Hkb [_ [_ [Hf _]]]. apply Z.ltb_lt in Hlx. lia. }
  destruct (nz / (nproc / k) <? min_block) eqn:Hlz; simpl.
  { apply Hkeep. intros b Hb Hkb [_ [_ [_ Hf]]]. apply Z.ltb_lt in Hlz.
    rewrite (Hb_eq b Hkb) in Hf. lia. }
  destruct (k * (nproc / k) >? Decomp.best_procs st) eqn:Hgt.
  - (* a strictly larger product: the candidate becomes [best] *)
    rewrite Z.gtb_ltb in Hgt. apply Z.ltb_lt in Hgt.
    unfold SearchOrder.first_best; simpl. conjuncts; try lia.
    + right. unfold SearchOrder.tried. lia.
    + intros a b Ha Hb [Hr' Hc] Hfeas.
      assert (Hcase : SearchOrder.tried nproc k (a * b) a \/
                      (a * b = nproc /\ a = k)).
      { unfold SearchOrder.tried. lia. }
      destruct Hcase as [Hold | [Hn ->]].
      * destruct (Hall a b Ha Hb Hold Hfeas) as [Hle _]. lia.
      * lia.
  - (* no larger: [best] stays, and was tried before this candidate *)
    rewrite Z.gtb_ltb in Hgt. apply Z.ltb_ge in Hgt.
    apply Hkeep. intros b Hb Hkb _. split; [lia|].
    intros Heq. destruct Hwho as [E | [Hr' Hc]].
    + rewrite E. simpl. lia.
    + lia.
Qed.

Lemma inner_first_best (nproc : Z) (j : nat) (st : Decomp.search) :
  Z.of_nat j <= nproc ->
  SearchOrder.first_best nx nz min_block nproc 1 st ->
  SearchOrder.first_best nx nz min_block nproc (1 + Z.of_nat j)
    (fold_left (Decomp.step nx nz min_block nproc)
       (Py.range 1 (1 + Z.of_nat j)) st).
Proof.
  intros Hj H1. induction j as [|j IH].
  - simpl. replace (1 + 0) with 1 by lia. exact H1.
  - rewrite range_snoc, fold_left_app. cbn [fold_left].
    replace (1 + Z.of_nat (S j)) with (1 + Z.of_nat j + 1) by lia.
    apply step_first_best; [lia|]. apply IH. lia.
Qed.

Lemma scan_nproc_first_best (nproc : Z) (st : Decomp.search) :
  1 <= nproc ->
  SearchOrder.first_best nx nz min_block nproc 1 st ->
  SearchOrder.first_best nx nz min_block (nproc + 1) 1
    (Decomp.scan_nproc nx nz min_block st nproc).
Proof.
  intros Hn H1. unfold Decomp.scan_nproc.
  pose proof (inner_first_best nproc (Z.to_nat nproc) st ltac:(lia) H1) as H.
  replace (1 + Z.of_nat (Z.to_nat nproc)) with (nproc + 1) in H by lia.
  destruct H as [Hp [Hbx [Hbz [Hwho Hall]]]].
  unfold SearchOrder.first_best. conjuncts; try assumption.
  - destruct Hwho as [E | Ht]; [left; exact E | right].
    unfold SearchOrder.tried in *. lia.
  - intros a b Ha Hb Ht Hfeas. apply Hall; try assumption.
    unfold SearchOrder.tried in *. lia.
Qed.

Lemma scan_first_best (j : nat) :
  SearchOrder.first_best nx nz min_block (1 + Z.of_nat j) 1
    (fold_left (Decomp.scan_nproc nx nz min_block)
       (Py.range 1 (1 + Z.of_nat j)) Decomp.search0).
Proof.
  induction j as [|j IH].
  - simpl. unfold SearchOrder.first_best, SearchOrder.tried; simpl.
    conjuncts; try lia. left; reflexivity.
  - rewrite range_snoc, fold_left_app. cbn [fold_left].
    replace (1 + Z.of_nat (S j)) with (1 + Z.of_nat j + 1) by lia.
    apply scan_nproc_first_best; [lia | exact IH].
Qed.

End Ties.

(** Among the accepted pairs with the returned process count, the returned
    one has the smallest factor along x: a later candidate replaces [best]
    only if its product is strictly larger. *)
Theorem decomposition_ties_to_smallest_fx (nx nz max_cores fw fdorder : Z) :
  exists procs_x procs_z threads total,
    Decomp.suggest_domain_decomposition_sofi nx nz max_cores fw fdorder
    = Ok (procs_x, procs_z, threads, total) /\
    forall fx fy, 1 <= fx -> 1 <= fy ->
      Decomp.feasible nx nz (2 * fw + 2 * fdorder) fx fy ->
      fx * fy = total -> procs_x <= fx.
Proof.
  set (mb := 2 * fw + 2 * fdorder).
  rewrite (suggest_returns nx nz mb max_cores fw fdorder eq_refl).
  do 4 eexists. split; [reflexivity|].
  intros fx fy Hfx Hfy Hfeas Htot.
  pose proof (scan_first_best nx nz mb (Z.to_nat max_cores)) as H.
  destruct (scan_inv nx nz mb max_cores) as [Hp [Hbx [Hbz Hb]]].
  unfold Decomp.scan in *.
  destruct (Z_lt_le_dec max_cores 1) as [Hlow | Hhigh].
  - (* empty search *)
    unfold Py.range in *.
    replace (Z.to_nat (max_cores + 1 - 1)) with 0%nat in * by lia.
    simpl in *. assert (fx = 1) by nia. lia.
  - replace (1 + Z.of_nat (Z.to_nat max_cores)) with (max_cores + 1) in H
      by lia.
    destruct H as [_ [_ [_ [_ Hall]]]].
    assert (Hle : fx * fy <= max_cores).
    { destruct Hb as [E | [_ Hle]]; [|lia].
      rewrite E in Hp. simpl in Hp. lia. }
    destruct (Hall fx fy Hfx Hfy) as [_ Hmin]; try assumption.
    + unfold SearchOrder.tried. nia.
    + apply Hmin. exact Htot.
Qed.

(** ** Padding: offsets, aligned inputs, border values, bad multiples *)









(** A zero multiple divides by zero before anything is padded. *)
Theorem pad_zero_multiple_raises (model : Np.ndarray) (mode : Np.pad_mode) :
  ModelUtils.Def219.pad_model_to_multiple model 0 mode
  = Raise ZeroDivisionError.
Proof. reflexivity. Qed.



(** *** What the border holds *)










(** *** The first definition and models of different shapes *)




(** ** Resampling: inputs that raise *)

(** Off the identity path a model with no rows has no last coordinate:
    [x_old[-1]] raises [IndexError]. *)
Theorem resample_empty_model_raises (model : Np.ndarray) (dx dz dh : float) :
  (dx =? dh)%float && (dz =? dh)%float = false ->
  Np.nrows model = 0%nat ->
  ModelUtils.resample_model model dx dz dh = Raise IndexError.
Proof.
  intros Hs H0. unfold ModelUtils.resample_model, Np.shape.
  rewrite Hs, H0. reflexivity.
Qed.

Lemma resample_empty_model_raises_witness :
  ModelUtils.resample_model (Np.mkArray Np.float32 0 2 []) 1 1 0.5
  = Raise IndexError.
Proof.
  apply (resample_empty_model_raises (Np.mkArray Np.float32 0 2 []) 1 1 0.5);
    reflexivity.
Defined.

Lemma is_nan_spec (x : float) :
  PrimFloat.is_nan x = true -> Prim2SF x = S754_nan.
Proof.
  unfold PrimFloat.is_nan. rewrite FloatAxioms.eqb_spec. unfold SFeqb.
  intros H. destruct (Prim2SF x) eqn:E; try reflexivity;
    rewrite SFcompare_refl in H by discriminate; discriminate H.
Qed.

Lemma eqb_nan_l (x y : float) :
  PrimFloat.is_nan x = true -> (x =? y)%float = false.
Proof.
  intros H. rewrite FloatAxioms.eqb_spec, (is_nan_spec x H). reflexivity.
Qed.

Lemma eqb_nan_r (x y : float) :
  PrimFloat.is_nan y = true -> (x =? y)%float = false.
Proof.
  intros H. rewrite FloatAxioms.eqb_spec, (is_nan_spec y H).
  unfold SFeqb. destruct (Prim2SF x); reflexivity.
Qed.

Lemma int_round_nan (x : float) :
  Prim2SF x = S754_nan -> Np.int_round x = Raise ValueError.
Proof. intros H. unfold Np.int_round. rewrite H. reflexivity. Qed.

(** A NaN among the old x spacing and the target spacing misses the
    identity path and, for a model with at least one row, makes the new
    sample count NaN: [int(round(...))] raises [ValueError]. *)
Theorem resample_nan_spacing_raises (model : Np.ndarray) (dx dz dh : float) :
  (1 <= Np.nrows model)%nat ->
  PrimFloat.is_nan dx = true \/ PrimFloat.is_nan dh = true ->
  ModelUtils.resample_model model dx dz dh = Raise ValueError.
Proof.
  intros Hr Hnan. unfold ModelUtils.resample_model, Np.shape.
  assert (Hs : (dx =? dh)%float = false).
  { destruct Hnan as [H | H]; [apply eqb_nan_l | apply eqb_nan_r]; exact H. }
  rewrite Hs. cbn [andb].
  rewrite last_item_arange by lia. cbn [Py.bind].
  rewrite int_round_nan; [reflexivity|].
  rewrite FloatAxioms.div_spec, FloatAxioms.mul_spec.
  destruct Hnan as [H | H]; rewrite (is_nan_spec _ H).
  - unfold SF64div, SF64mul, SFdiv, SFmul.
    destruct (Prim2SF (Np.of_int (Z.of_nat (Np.nrows model) - 1)));
      reflexivity.
  - unfold SF64div, SFdiv.
    destruct (SF64mul _ _); reflexivity.
Qed.

Lemma resample_nan_spacing_raises_witness :
  ModelUtils.resample_model ModelUtils.model_2_2 1 1 nan = Raise ValueError.
Proof.
  apply (resample_nan_spacing_raises ModelUtils.model_2_2 1 1 nan).
  - simpl; lia.
  - right. reflexivity.
Defined.

Lemma eqb_zero_spec (x : float) :
  (x =? 0)%float = true -> exists s, Prim2SF x = S754_zero s.
Proof.
  rewrite FloatAxioms.eqb_spec. unfold SFeqb.
  change (Prim2SF 0) with (S754_zero false).
  destruct (Prim2SF x) as [s | s | | s m e]; simpl; intros H.
  - exists s. reflexivity.
  - destruct s; discriminate H.
  - discriminate H.
  - destruct s; discriminate H.
Qed.

(** A zero target spacing never yields an array: off the identity path,
    for a model with at least one row, the extent divided by zero is an
    infinity or NaN, and [int(round(...))] raises [OverflowError] or
    [ValueError]. *)
Theorem resample_zero_spacing_raises (model : Np.ndarray) (dx dz dh : float) :
  (dx =? dh)%float && (dz =? dh)%float = false ->
  (1 <= Np.nrows model)%nat ->
  (dh =? 0)%float = true ->
  ModelUtils.resample_model model dx dz dh = Raise OverflowError \/
  ModelUtils.resample_model model dx dz dh = Raise ValueError.
Proof.
  intros Hs Hr Hz. unfold ModelUtils.resample_model, Np.shape.
  rewrite Hs. rewrite last_item_arange by lia. cbn [Py.bind].
  destruct (eqb_zero_spec dh Hz) as [s Es].
  unfold Np.int_round.
  rewrite FloatAxioms.div_spec, Es. unfold SF64div, SFdiv.
  destruct (Prim2SF (Np.of_int (Z.of_nat (Np.nrows model) - 1) * dx))
    as [sx | sx | | sx mx ex]; cbn [Py.bind];
    first [left; reflexivity | right; reflexivity].
Qed.

Lemma resample_zero_spacing_raises_witness :
  ModelUtils.resample_model ModelUtils.model_2_2 1 1 0 = Raise OverflowError \/
  ModelUtils.resample_model ModelUtils.model_2_2 1 1 0 = Raise ValueError.
Proof.
  apply (resample_zero_spacing_raises ModelUtils.model_2_2 1 1 0).
  - reflexivity.
  - simpl; lia.
  - reflexivity.
Defined.

(** ** config.py: what the merged dictionary holds *)

Lemma int_of_str_str_int (n : Z) :
  Config.int_of_str (Config.str_int n) = Some n.
Proof.
  unfold Config.int_of_str, Config.str_int.
  rewrite DecimalString.NilZero.isi.
  - simpl. rewrite DecimalZ.of_to. reflexivity.
  - destruct n; simpl; try discriminate.
    intros E. injection E as E.
    exact (DecimalPos.Unsigned.to_uint_nonnil _ E).
  - destruct n; simpl; try discriminate.
    intros E. injection E as E.
    exact (DecimalPos.Unsigned.to_uint_nonnil _ E).
Qed.

Lemma distinct_NoDup (l : list String.string) :
  Keys.distinct l = true -> NoDup l.
Proof.
  induction l as [|k l IH]; simpl; intros H; [constructor|].
  apply andb_true_iff in H. destruct H as [Hk Hl].
  constructor; [|apply IH; exact Hl].
  intros Hin. apply negb_true_iff in Hk.
  assert (existsb (String.eqb k) l = true).
  { apply existsb_exists. exists k. split; [exact Hin|].
    apply String.eqb_refl. }
  congruence.
Qed.

Lemma read_back_int (d : Config.OrderedDict.t) (k : String.string) (n : Z) :
  Config.OrderedDict.get d k = Some (Config.str_int n) ->
  option_map Config.int_of_str (Config.OrderedDict.get d k) = Some (Some n).
Proof. intros ->. simpl. rewrite int_of_str_str_int. reflexivity. Qed.

Section ConfigFacts.

Variables (str_float format_6f : float -> String.string).
Variable cfg : Config.Sofi2DConfig.t.

(** No block overwrites an entry of another: the keys of the thirteen
    blocks are all different, so the merged dictionary is the blocks' items
    one after the other, in the order of the loop. *)
Theorem config_blocks_in_order :
  Config.to_ordered_json str_float format_6f cfg
  = concat (Config.blocks str_float format_6f cfg) /\
  NoDup (Config.OrderedDict.keys
           (Config.to_ordered_json str_float format_6f cfg)) /\
  length (Config.to_ordered_json str_float format_6f cfg) = 85%nat.
Proof.
  split; [reflexivity|]. split; [|reflexivity].
  unfold Config.OrderedDict.keys.
  change (map fst (Config.to_ordered_json str_float format_6f cfg))
    with (map fst (concat (Config.blocks str_float format_6f cfg))).
  apply distinct_NoDup. vm_compute. reflexivity.
Qed.

(** The source-wavelet block never reaches the output: the loop of
    [to_ordered_json] leaves [self.sigout] out, so none of its keys is in
    the merged dictionary, whatever the configuration holds. *)
Theorem config_omits_sigout :
  forall k, In k (Config.OrderedDict.keys
                    (Config.Sigout_to_dict
                       (Config.Sofi2DConfig.sigout cfg))) ->
    Config.OrderedDict.get
      (Config.to_ordered_json str_float format_6f cfg) k = None.
Proof.
  intros k Hk. cbn in Hk.
  repeat (destruct Hk as [<- | Hk]; [reflexivity|]).
  destruct Hk.
Qed.

(** The values the grid preparation produces are found under their keys,
    the integers as decimal numerals that read back as the same integers:
    the process grid, the grid size, the boundary width and the stencil
    order. *)
Theorem config_lookup_round_trip :
  let d := Config.to_ordered_json str_float format_6f cfg in
  let read k := option_map Config.int_of_str (Config.OrderedDict.get d k) in
  read "NPROCX"%string
  = Some (Some (Config.DomainDecomposition.nprocx
                  (Config.Sofi2DConfig.domain cfg))) /\
  read "NPROCY"%string
  = Some (Some (Config.DomainDecomposition.nprocy
                  (Config.Sofi2DConfig.domain cfg))) /\
  read "NX"%string
  = Some (Some (Config.Grid2D.nx (Config.Sofi2DConfig.grid cfg))) /\
  read "NY"%string
  = Some (Some (Config.Grid2D.ny (Config.Sofi2DConfig.grid cfg))) /\
  read "FW"%string
  = Some (Some (Config.Boundary.fw (Config.Sofi2DConfig.boundary cfg))) /\
  read "FDORDER"%string
  = Some (Some (Config.FDOrder.fdorder (Config.Sofi2DConfig.fd cfg))) /\
  Config.OrderedDict.get d "DH"%string
  = Some (str_float (Config.Grid2D.dh (Config.Sofi2DConfig.grid cfg))).
Proof.
  cbv zeta.
  conjuncts; try (apply read_back_int); reflexivity.
Qed.

End ConfigFacts.

(** [make_default_config] carries its three arguments into the grid block
    and leaves the process grid at one process per axis. *)
Theorem default_config_grid (str_float format_6f : float -> String.string)
    (nx ny : Z) (dh : float) :
  let d := Config.to_ordered_json str_float format_6f
             (Config.make_default_config nx ny dh) in
  Config.OrderedDict.get d "NX"%string = Some (Config.str_int nx) /\
  Config.OrderedDict.get d "NY"%string = Some (Config.str_int ny) /\
  Config.OrderedDict.get d "DH"%string = Some (str_float dh) /\
  Config.OrderedDict.get d "NPROCX"%string = Some "1"%string /\
  Config.OrderedDict.get d "NPROCY"%string = Some "1"%string.
Proof. cbv zeta. conjuncts; reflexivity. Qed.

(** ** output_utils.py: receivers written and read back *)

Lemma append_nil_r (s : String.string) :
  String.append s String.EmptyString = s.
Proof. induction s as [|c s IH]; simpl; [reflexivity | rewrite IH; reflexivity]. Qed.

Lemma append_assoc (a b c : String.string) :
  String.append (String.append a b) c = String.append a (String.append b c).
Proof. induction a as [|x a IH]; simpl; [reflexivity | rewrite IH; reflexivity]. Qed.

(** A prefix without separators stays in the first piece. *)
Lemma split_prefix (sep : Ascii.ascii -> bool) (a rest : String.string) :
  Text.all_chars (fun c => negb (sep c)) a = true ->
  Text.split sep (String.append a rest)
  = String.append a (hd String.EmptyString (Text.split sep rest))
    :: tl (Text.split sep rest).
Proof.
  induction a as [|c a IH]; simpl; intros H.
  - destruct rest as [|c rest]; simpl; [reflexivity|].
    destruct (sep c); [reflexivity|].
    destruct (Text.split sep rest); reflexivity.
  - apply andb_true_iff in H. destruct H as [Hc Ha].
    apply negb_true_iff in Hc. rewrite Hc, (IH Ha). reflexivity.
Qed.

Lemma split_whole (sep : Ascii.ascii -> bool) (a : String.string) :
  Text.all_chars (fun c => negb (sep c)) a = true ->
  Text.split sep a = [a].
Proof.
  intros H. rewrite <- (append_nil_r a) at 1.
  rewrite (split_prefix sep a String.EmptyString H). simpl.
  rewrite append_nil_r. reflexivity.
Qed.

Lemma split_at (sep : Ascii.ascii -> bool) (a rest : String.string)
    (c : Ascii.ascii) :
  Text.all_chars (fun c => negb (sep c)) a = true -> sep c = true ->
  Text.split sep (String.append a (String.String c rest))
  = a :: Text.split sep rest.
Proof.
  intros Ha Hc. rewrite (split_prefix sep a _ Ha). simpl. rewrite Hc. simpl.
  rewrite append_nil_r. reflexivity.
Qed.

Lemma all_chars_weaken (p q : Ascii.ascii -> bool) (s : String.string) :
  (forall c, p c = true -> q c = true) ->
  Text.all_chars p s = true -> Text.all_chars q s = true.
Proof.
  intros Hpq. induction s as [|c s IH]; simpl; [reflexivity|].
  intros H. apply andb_true_iff in H. destruct H as [Hc Hs].
  rewrite (Hpq c Hc), (IH Hs). reflexivity.
Qed.

Lemma all_chars_append (p : Ascii.ascii -> bool) (a b : String.string) :
  Text.all_chars p a = true -> Text.all_chars p b = true ->
  Text.all_chars p (String.append a b) = true.
Proof.
  induction a as [|c a IH]; simpl; intros Ha Hb; [exact Hb|].
  apply andb_true_iff in Ha. destruct Ha as [Hc Ha].
  rewrite Hc, (IH Ha Hb). reflexivity.
Qed.

Lemma newline_is_space (c : Ascii.ascii) :
  Text.is_newline c = true -> Text.is_space c = true.
Proof.
  unfold Text.is_newline. intros H. apply Ascii.eqb_eq in H. subst c.
  reflexivity.
Qed.

Section Receivers.

Variable format_6f : float -> String.string.
Variable float_of_str : String.string -> option float.
(** What a written number reads back as. *)
Variable q : float -> float.

(** A formatted number is one field, and [float] reads it. *)
Hypothesis Hfield : forall x, Text.is_field (format_6f x) = true.
Hypothesis Hparse : forall x, float_of_str (format_6f x) = Some (q x).

Lemma field_parts (x : float) :
  Text.nonempty (format_6f x) = true /\
  Text.all_chars (fun c => negb (Text.is_space c)) (format_6f x) = true /\
  Text.all_chars (fun c => negb (Text.is_hash c)) (format_6f x) = true /\
  Text.all_chars (fun c => negb (Text.is_newline c)) (format_6f x) = true.
Proof.
  pose proof (Hfield x) as H. unfold Text.is_field in H.
  apply andb_true_iff in H. destruct H as [Hne Hall].
  conjuncts; [exact Hne | | |];
    (eapply all_chars_weaken; [|exact Hall]); intros c Hc;
    apply andb_true_iff in Hc; destruct Hc as [Hs Hh]; try assumption.
  apply negb_true_iff. apply negb_true_iff in Hs.
  destruct (Text.is_newline c) eqn:E; [|reflexivity].
  rewrite (newline_is_space c E) in Hs. discriminate Hs.
Qed.

(** The fields of a written line, comment stripping included. *)
Lemma receiver_line_fields (x z : float) :
  Text.fields
    (Text.strip_comment
       (String.append (format_6f x)
          (String.append OutputUtils.space (format_6f z))))
  = [format_6f x; format_6f z].
Proof.
  destruct (field_parts x) as [Hnx [Hsx [Hhx _]]].
  destruct (field_parts z) as [Hnz [Hsz [Hhz _]]].
  unfold Text.strip_comment.
  rewrite split_whole.
  2:{ apply all_chars_append; [exact Hhx|].
      apply all_chars_append; [reflexivity | exact Hhz]. }
  simpl hd. unfold Text.fields, OutputUtils.space. simpl String.append.
  rewrite split_at by (try exact Hsx; reflexivity).
  rewrite split_whole by exact Hsz.
  simpl. rewrite Hnx, Hnz. reflexivity.
Qed.

(** The rows [np.loadtxt] finds in the written text: one per receiver. *)
Lemma written_rows (xzs : list (float * float)) :
  OutputUtils.text_rows
    (String.concat String.EmptyString
       (map (OutputUtils.receiver_line format_6f) xzs))
  = map (fun xz => [format_6f (fst xz); format_6f (snd xz)]) xzs.
Proof.
  unfold OutputUtils.text_rows, Text.lines.
  assert (Hline : forall xz rest,
            Text.split Text.is_newline
              (String.append (OutputUtils.receiver_line format_6f xz) rest)
            = String.append (format_6f (fst xz))
                (String.append OutputUtils.space (format_6f (snd xz)))
              :: Text.split Text.is_newline rest).
  { intros [x z] rest. unfold OutputUtils.receiver_line. simpl fst. simpl snd.
    destruct (field_parts x) as [_ [_ [_ Hx]]].
    destruct (field_parts z) as [_ [_ [_ Hz]]].
    assert (E : String.append
                  (String.append (format_6f x)
                     (String.append OutputUtils.space
                        (String.append (format_6f z) OutputUtils.nl))) rest
                = String.append
                    (String.append (format_6f x)
                       (String.append OutputUtils.space (format_6f z)))
                    (String.String Text.newline rest)).
    { rewrite !append_assoc. reflexivity. }
    rewrite E. apply split_at; [|reflexivity].
    apply all_chars_append; [exact Hx|].
    apply all_chars_append; [reflexivity | exact Hz]. }
  induction xzs as [|xz xzs IH]; [reflexivity|].
  destruct xzs as [|xz' xzs'].
  - simpl map. simpl String.concat.
    rewrite <- (append_nil_r (OutputUtils.receiver_line format_6f xz)).
    rewrite Hline. cbn [map Text.split]. rewrite receiver_line_fields.
    reflexivity.
  - change (String.concat String.EmptyString
              (map (OutputUtils.receiver_line format_6f) (xz :: xz' :: xzs')))
      with (String.append (OutputUtils.receiver_line format_6f xz)
              (String.concat String.EmptyString
                 (map (OutputUtils.receiver_line format_6f) (xz' :: xzs')))).
    rewrite Hline. cbn [map]. rewrite receiver_line_fields.
    cbn [filter length Nat.eqb negb]. f_equal. exact IH.
Qed.

Lemma parse_written_rows (xzs : list (float * float)) :
  ModelUtils.map_result (OutputUtils.parse_fields float_of_str)
    (map (fun xz => [format_6f (fst xz); format_6f (snd xz)]) xzs)
  = Ok (map (fun xz => [q (fst xz); q (snd xz)]) xzs).
Proof.
  induction xzs as [|xz xzs IH]; [reflexivity|].
  simpl. rewrite !Hparse. simpl. rewrite IH. reflexivity.
Qed.

Lemma combine_columns (xs zs : list float) :
  length xs = length zs ->
  OutputUtils.column 0 (map (fun xz => [q (fst xz); q (snd xz)])
                          (combine xs zs)) = map q xs /\
  OutputUtils.column 1 (map (fun xz => [q (fst xz); q (snd xz)])
                          (combine xs zs)) = map q zs.
Proof.
  revert zs. induction xs as [|x xs IH]; intros [|z zs] Hlen;
    try discriminate Hlen; [split; reflexivity|].
  simpl in Hlen. injection Hlen as Hlen.
  destruct (IH zs Hlen) as [H0 H1]. unfold OutputUtils.column in *.
  simpl. rewrite H0, H1. split; reflexivity.
Qed.

(** Two or more receivers come back from the file, each coordinate as its
    six-decimal numeral reads. *)
Theorem receivers_round_trip (rec_x rec_z : list float) :
  length rec_x = length rec_z -> (2 <= length rec_x)%nat ->
  exists text,
    OutputUtils.write_receiver_dat format_6f rec_x rec_z = Ok text /\
    OutputUtils.read_receiver_dat float_of_str text
    = Ok (map q rec_x, map q rec_z).
Proof.
  intros Hlen Hn. unfold OutputUtils.write_receiver_dat.
  rewrite Hlen, Nat.eqb_refl. simpl negb. cbv iota.
  eexists. split; [reflexivity|].
  unfold OutputUtils.read_receiver_dat, OutputUtils.loadtxt.
  rewrite written_rows, parse_written_rows. cbn [Py.bind].
  destruct (combine_columns rec_x rec_z Hlen) as [H0 H1].
  destruct rec_x as [|x0 [|x1 xs]]; simpl in Hn; try lia.
  destruct rec_z as [|z0 [|z1 zs]]; simpl in Hlen; try discriminate Hlen.
  remember (combine xs zs) as tail_.
  simpl combine in *. rewrite <- Heqtail_ in *.
  simpl map in *. cbn [length].
  assert (Hall : forallb (fun r : list float => Nat.eqb (length r) 2)
                   (map (fun xz => [q (fst xz); q (snd xz)]) tail_) = true).
  { apply forallb_forall. intros r Hr. apply in_map_iff in Hr.
    destruct Hr as [xz [<- _]]. reflexivity. }
  cbn [forallb length Nat.eqb andb]. rewrite Hall. cbn [negb Py.bind].
  cbn [Nat.ltb Nat.leb]. rewrite H0, H1. reflexivity.
Qed.

(** A file holding one receiver, or none, is not read back: [np.loadtxt]
    returns a 1-D array for it and the reader raises [ValueError]. *)
Theorem single_receiver_not_read_back (rec_x rec_z : list float) :
  length rec_x = length rec_z -> (length rec_x <= 1)%nat ->
  exists text,
    OutputUtils.write_receiver_dat format_6f rec_x rec_z = Ok text /\
    OutputUtils.read_receiver_dat float_of_str text = Raise ValueError.
Proof.
  intros Hlen Hn. unfold OutputUtils.write_receiver_dat.
  rewrite Hlen, Nat.eqb_refl. simpl negb. cbv iota.
  eexists. split; [reflexivity|].
  unfold OutputUtils.read_receiver_dat, OutputUtils.loadtxt.
  rewrite written_rows, parse_written_rows. cbn [Py.bind].
  destruct rec_x as [|x0 [|x1 xs]]; simpl in Hn; try lia;
    destruct rec_z as [|z0 [|z1 zs]]; simpl in Hlen; try discriminate Hlen;
    reflexivity.
Qed.

End Receivers.

Lemma receivers_round_trip_witness :
  exists text,
    OutputUtils.write_receiver_dat Sample.format_6f [0; 100; 200]%float
      [0; 5; 0]%float = Ok text /\
    OutputUtils.read_receiver_dat Sample.float_of_str text
    = Ok (map Sample.read_back [0; 100; 200]%float,
          map Sample.read_back [0; 5; 0]%float).
Proof.
  apply (receivers_round_trip Sample.format_6f Sample.float_of_str
           Sample.read_back).
  - intros x. unfold Sample.format_6f. destruct (x =? 0)%float; reflexivity.
  - intros x. unfold Sample.format_6f, Sample.read_back.
    destruct (x =? 0)%float; reflexivity.
  - reflexivity.
  - simpl; lia.
Defined.

Lemma single_receiver_not_read_back_witness :
  exists text,
    OutputUtils.write_receiver_dat Sample.format_6f [100]%float [5]%float
    = Ok text /\
    OutputUtils.read_receiver_dat Sample.float_of_str text = Raise ValueError.
Proof.
  apply (single_receiver_not_read_back Sample.format_6f Sample.float_of_str
           Sample.read_back).
  - intros x. unfold Sample.format_6f. destruct (x =? 0)%float; reflexivity.
  - intros x. unfold Sample.format_6f, Sample.read_back.
    destruct (x =? 0)%float; reflexivity.
  - reflexivity.
  - simpl; lia.
Defined.

(** ** output_utils.py: a source that is no 5-tuple *)

Lemma source_line_five (fmt : float -> String.string) (src : list float) :
  length src = 5%nat -> exists line, OutputUtils.source_line fmt src = Ok line.
Proof.
  intros H. destruct src as [|a [|b [|c [|d [|e [|f src]]]]]];
    try discriminate H.
  eexists. reflexivity.
Qed.

Lemma source_line_other (fmt : float -> String.string) (src : list float) :
  length src <> 5%nat -> OutputUtils.source_line fmt src = Raise ValueError.
Proof.
  intros H. destruct src as [|a [|b [|c [|d [|e [|f src]]]]]];
    try reflexivity.
  exfalso. apply H. reflexivity.
Qed.

Lemma write_sources_stops (fmt : float -> String.string)
    (good : list (list float)) (bad : list float)
    (rest : list (list float)) (written : String.string) :
  Forall (fun src => length src = 5%nat) good ->
  length bad <> 5%nat ->
  OutputUtils.write_sources fmt (good ++ bad :: rest) written
  = (fst (OutputUtils.write_sources fmt good written), Raise ValueError) /\
  snd (OutputUtils.write_sources fmt good written) = Ok tt.
Proof.
  intros Hgood Hbad. revert written.
  induction Hgood as [|src good Hsrc _ IH]; intros written.
  - simpl. rewrite (source_line_other fmt bad Hbad). split; reflexivity.
  - simpl. destruct (source_line_five fmt src Hsrc) as [line ->].
    apply IH.
Qed.

(** The source file is not written atomically: when a source is not a
    5-tuple the call raises [ValueError] with the file already emptied and
    holding the lines of the sources before it, exactly what writing those
    sources alone would leave. *)
Theorem write_source_stops_at_bad_source (fmt : float -> String.string)
    (good : list (list float)) (bad : list float)
    (rest : list (list float)) :
  Forall (fun src => length src = 5%nat) good ->
  length bad <> 5%nat ->
  OutputUtils.write_source_dat fmt (good ++ bad :: rest)
  = (fst (OutputUtils.write_source_dat fmt good), Raise ValueError) /\
  snd (OutputUtils.write_source_dat fmt good) = Ok tt.
Proof.
  intros Hgood Hbad. unfold OutputUtils.write_source_dat.
  apply write_sources_stops; assumption.
Qed.

Lemma write_source_stops_at_bad_source_witness :
  OutputUtils.write_source_dat Sample.format_10_2f
    ([[100; 5; 0; 25; 1]] ++ [100; 5; 0] :: [[200; 5; 0; 25; 1]])%float
  = (fst (OutputUtils.write_source_dat Sample.format_10_2f
            [[100; 5; 0; 25; 1]]%float), Raise ValueError) /\
  snd (OutputUtils.write_source_dat Sample.format_10_2f
         [[100; 5; 0; 25; 1]]%float) = Ok tt.
Proof.
  apply (write_source_stops_at_bad_source Sample.format_10_2f
           [[100; 5; 0; 25; 1]]%float [100; 5; 0]%float
           [[200; 5; 0; 25; 1]]%float).
  - repeat constructor.
  - simpl; lia.
Defined.

(** ** model_utils.py: [read_sgy] *)

(** Reading a stream whose traces each hold as many samples as the first,
    or a single sample, gives a well-formed [float32] array with one row
    per trace: a full trace supplies its samples rounded to single
    precision, a one-sample trace fills its whole row with that sample. *)
Theorem read_sgy_rows (tr0 : list float) (rest : list (list float)) :
  Forall (fun tr => length tr = length tr0 \/ length tr = 1%nat)
    (tr0 :: rest) ->
  exists model,
    Sgy.read_sgy (tr0 :: rest) = Ok model /\
    Np.wf model /\
    Np.adtype model = Np.float32 /\
    Np.shape model
    = (Z.of_nat (length (tr0 :: rest)), Z.of_nat (length tr0)) /\
    Forall2 (fun tr row =>
               (length tr = length tr0 -> row = map Sgy.to_float32 tr) /\
               (length tr <> length tr0 ->
                row = repeat (Sgy.to_float32 (hd 0%float tr)) (length tr0)))
      (tr0 :: rest) (Np.rows model).
Proof.
  intros Hall.
  set (npts := length tr0) in *.
  destruct (map_result_Forall2
              (fun tr => Sgy.assign_row npts (map Sgy.to_float32 tr))
              (fun tr row =>
                 length row = npts /\
                 (length tr = npts -> row = map Sgy.to_float32 tr) /\
                 (length tr <> npts ->
                  row = repeat (Sgy.to_float32 (hd 0%float tr)) npts))
              (tr0 :: rest)) as [rows [Erows HF]].
  { eapply Forall_impl; [|exact Hall]. intros tr Htr. simpl in Htr.
    unfold Sgy.assign_row. rewrite length_map.
    destruct (Nat.eqb_spec (length tr) npts) as [E | E].
    - eexists. split; [reflexivity|]. conjuncts.
      + rewrite length_map. exact E.
      + reflexivity.
      + intros H. contradiction.
    - destruct Htr as [Htr | Htr]; [contradiction|].
      destruct (Nat.eqb_spec (length tr) 1) as [_ | E1]; [|contradiction].
      eexists. split; [reflexivity|]. conjuncts.
      + apply repeat_length.
      + intros H. contradiction.
      + intros _. destruct tr as [|v [|w tr]]; try discriminate Htr.
        reflexivity. }
  unfold Sgy.read_sgy. fold npts. rewrite Erows. cbn [Py.bind].
  eexists. split; [reflexivity|].
  assert (Hlen : length rows = length (tr0 :: rest)).
  { symmetry. eapply Forall2_length. exact HF. }
  conjuncts.
  - unfold Np.wf; simpl. split; [exact Hlen|].
    clear - HF. induction HF as [|tr row trs rws [Hr _] _ IH];
      constructor; assumption.
  - reflexivity.
  - reflexivity.
  - simpl Np.rows. clear - HF.
    induction HF as [|tr row trs rws [_ Hr] _ IH]; constructor; assumption.
Qed.

Lemma read_sgy_rows_witness :
  exists model,
    Sgy.read_sgy ([1500; 1600; 1700] :: [[2000]; [1; 2; 3]])%float
    = Ok model /\
    Np.wf model /\
    Np.adtype model = Np.float32 /\
    Np.shape model
    = (Z.of_nat (length ([1500; 1600; 1700] :: [[2000]; [1; 2; 3]])%float),
       Z.of_nat (length [1500; 1600; 1700]%float)) /\
    Forall2 (fun tr row =>
               (length tr = length [1500; 1600; 1700]%float ->
                row = map Sgy.to_float32 tr) /\
               (length tr <> length [1500; 1600; 1700]%float ->
                row = repeat (Sgy.to_float32 (hd 0%float tr))
                        (length [1500; 1600; 1700]%float)))
      ([1500; 1600; 1700] :: [[2000]; [1; 2; 3]])%float (Np.rows model).
Proof.
  apply (read_sgy_rows [1500; 1600; 1700]%float [[2000]; [1; 2; 3]]%float).
  apply Forall_cons; [left; reflexivity|].
  apply Forall_cons; [right; reflexivity|].
  apply Forall_cons; [left; reflexivity|].
  apply Forall_nil.
Defined.

(** A trace that has neither the first trace's number of samples nor a
    single sample cannot be stored in its row: [read_sgy] raises
    [ValueError]. *)
Theorem read_sgy_ragged_raises (tr0 : list float) (rest : list (list float))
    (tr : list float) :
  In tr rest ->
  length tr <> length tr0 -> length tr <> 1%nat ->
  Sgy.read_sgy (tr0 :: rest) = Raise ValueError.
Proof.
  intros Hin Hlen H1. unfold Sgy.read_sgy.
  set (npts := length tr0) in *.
  assert (Hgen : forall l, In tr l ->
            exists e, ModelUtils.map_result
              (fun t => Sgy.assign_row npts (map Sgy.to_float32 t)) l
            = Raise e /\ e = ValueError).
  { induction l as [|t l IH]; intros Hl; [destruct Hl|].
    simpl. unfold Sgy.assign_row at 1. rewrite length_map.
    destruct Hl as [-> | Hl].
    - replace (Nat.eqb (length tr) npts) with false
        by (symmetry; apply Nat.eqb_neq; exact Hlen).
      replace (Nat.eqb (length tr) 1) with false
        by (symmetry; apply Nat.eqb_neq; exact H1).
      exists ValueError. split; reflexivity.
    - destruct (IH Hl) as [e [He ->]].
      destruct (Nat.eqb (length t) npts); simpl.
      + rewrite He. exists ValueError. split; reflexivity.
      + destruct (Nat.eqb (length t) 1); simpl.
        * rewrite He. exists ValueError. split; reflexivity.
        * exists ValueError. split; reflexivity. }
  destruct (Hgen (tr0 :: rest) (or_intror Hin)) as [e [He ->]].
  rewrite He. reflexivity.
Qed.

Lemma read_sgy_ragged_raises_witness :
  Sgy.read_sgy ([1500; 1600; 1700] :: [[2000]; [1; 2]; [1; 2; 3]])%float
  = Raise ValueError.
Proof.
  apply (read_sgy_ragged_raises [1500; 1600; 1700]%float
           [[2000]; [1; 2]; [1; 2; 3]]%float [1; 2]%float).
  - simpl. right. left. reflexivity.
  - simpl; lia.
  - simpl; lia.
Defined.

(** An empty stream has no first trace: [read_sgy] raises [IndexError]
    whatever follows, and a stream with at least one trace never does. *)
Theorem read_sgy_index_error (st : list (list float)) :
  Sgy.read_sgy st = Raise IndexError <-> st = [].
Proof.
  split.
  - destruct st as [|tr0 rest]; [reflexivity|]. intros H. exfalso.
    unfold Sgy.read_sgy in H.
    assert (Hgen : forall npts l,
              ModelUtils.map_result
                (fun t => Sgy.assign_row npts (map Sgy.to_float32 t)) l
              <> Raise IndexError).
    { intros npts l. induction l as [|t l IH]; simpl; [discriminate|].
      unfold Sgy.assign_row at 1.
      destruct (Nat.eqb _ npts); simpl.
      - destruct (ModelUtils.map_result _ l) as [rs | e] eqn:El;
          simpl; [discriminate|]. intros Hq. apply IH.
        injection Hq as ->. reflexivity.
      - destruct (Nat.eqb _ 1); simpl; [|discriminate].
        destruct (ModelUtils.map_result _ l) as [rs | e] eqn:El;
          simpl; [discriminate|]. intros Hq. apply IH.
        injection Hq as ->. reflexivity. }
    destruct (ModelUtils.map_result _ (tr0 :: rest)) as [rs | e] eqn:El.
    + discriminate H.
    + simpl in H. apply (Hgen (length tr0) (tr0 :: rest)).
      rewrite El. injection H as ->. reflexivity.
  - intros ->. reflexivity.
Qed.


(** ** __init__.py: the exported names *)

Lemma existsb_eqb_In (name : String.string) (ns : list String.string) :
  existsb (String.eqb name) ns = true <-> In name ns.
Proof.
  rewrite existsb_exists. split.
  - intros [x [Hx E]]. apply String.eqb_eq in E. subst x. exact Hx.
  - intros H. exists name. split; [exact H | apply String.eqb_refl].
Qed.

(** [__all__] promises seven names the import statements never bind.
    Whatever else the package namespace holds beside the imported names,
    a star import raises [AttributeError] as long as one of the seven is
    missing. *)
Theorem star_import_raises (others : list String.string) :
  (exists name, In name (Package.unbound Package.imported) /\
                ~ In name others) ->
  Package.unbound Package.imported
  = [ "save_config"; "update_basic_params"; "resample_model_iso";
      "recommend_dd"; "suggest_domain_decomposition"; "set_sigout";
      "set_snap" ]%string /\
  Package.import_star (Package.imported ++ others) = Raise AttributeError.
Proof.
  intros [name [Hin Hnot]]. split; [reflexivity|].
  assert (Hget : forall n,
            Package.getattr (Package.imported ++ others) n
            = if existsb (String.eqb n) Package.imported then Ok n
              else if existsb (String.eqb n) others then Ok n
              else Raise AttributeError).
  { intros n. unfold Package.getattr. rewrite existsb_app.
    destruct (existsb (String.eqb n) Package.imported); reflexivity. }
  assert (Hname : existsb (String.eqb name) others = false).
  { destruct (existsb (String.eqb name) others) eqn:E; [|reflexivity].
    exfalso. apply Hnot. apply existsb_eqb_In. exact E. }
  clear Hnot. unfold Package.import_star, Package.__all__.
  cbn [ModelUtils.map_result]. rewrite !Hget.
  repeat match goal with
         | |- context [existsb (String.eqb ?s) Package.imported] =>
             let b := eval vm_compute in
                        (existsb (String.eqb s) Package.imported) in
             change (existsb (String.eqb s) Package.imported) with b
         end.
  cbv iota. cbn in Hin.
  repeat (destruct Hin as [<- | Hin];
          [ rewrite Hname;
            repeat match goal with
                   | |- context [existsb (String.eqb ?s) others] =>
                       destruct (existsb (String.eqb s) others)
                   end; reflexivity | ]).
  destruct Hin.
Qed.

Lemma star_import_raises_witness :
  Package.unbound Package.imported
  = [ "save_config"; "update_basic_params"; "resample_model_iso";
      "recommend_dd"; "suggest_domain_decomposition"; "set_sigout";
      "set_snap" ]%string /\
  Package.import_star
    (Package.imported
     ++ ["config"; "model_utils"; "output_utils"; "plot_utils"]%string)
  = Raise AttributeError.
Proof.
  apply (star_import_raises
           ["config"; "model_utils"; "output_utils"; "plot_utils"]%string).
  exists "save_config"%string. split.
  - simpl. left. reflexivity.
  - simpl. intros [H | [H | [H | [H | H]]]]; try discriminate H. exact H.
Defined.

(** ** config.py: a key of the source-wavelet block *)

Lemma config_omits_sigout_witness :
  Config.OrderedDict.get
    (Config.to_ordered_json Sample.format_6f Sample.format_6f
       (Config.make_default_config 100 100 1%float))
    "SIGOUT_FILE"%string = None.
Proof.
  apply (config_omits_sigout Sample.format_6f Sample.format_6f
           (Config.make_default_config 100 100 1%float)
           "SIGOUT_FILE"%string).
  simpl. right. right. left. reflexivity.
Defined.
